(** * Archive31: page downloader and size-bounded PDF splitter

    A shallow embedding of [archive_31_vers_pdf.py] and the properties
    of its three parts: the URL pattern matcher ([analyser_url],
    [generer_url]), the page fetcher ([telecharger_page] and the
    aggregation loop of [main]) and the adaptive packer
    ([creer_pdf_split]).

    Conventions of the embedding
    - Python [int] is [Z]; [len] results are [nat] or [Z.of_nat].
    - Python [str] is [string]: a sequence of characters with code
      points below 256.
    - Python [float] is IEEE 754 binary64, here [spec_float] with the
      operations of [SpecFloat] at precision 53 and maximal exponent
      1024; the operators raise where Python's do
      ([ZeroDivisionError], [OverflowError], [ValueError]).
    - Library calls ([requests.get], [requests.utils.unquote],
      [Image.open], [Image.save], [os.path.getsize], the thread pool) are
      parameters of the sections that use them.
    - A [while] loop is a fixpoint on a fuel counter that bounds the
      number of iterations; [OutOfFuel] is the only outcome of a loop
      that does not stop. *)

From Stdlib Require Import ZArith List String Ascii Bool Lia.
From Stdlib Require Import SpecFloat.
From Stdlib Require Import Decimal DecimalString DecimalN.
From Stdlib Require Import Permutation Sorted Orders Mergesort.
Import ListNotations.

Local Open Scope Z_scope.

(** ** Outcomes of a Python call *)

Inductive exception : Type :=
| ZeroDivisionError
| OverflowError
| ValueError.

Inductive outcome (A : Type) : Type :=
| Returns (a : A)
| Raises (e : exception)
| OutOfFuel.

Arguments Returns {A} a.
Arguments Raises {A} e.
Arguments OutOfFuel {A}.

Definition bind {A B} (m : outcome A) (k : A -> outcome B) : outcome B :=
  match m with
  | Returns a => k a
  | Raises e => Raises e
  | OutOfFuel => OutOfFuel
  end.

Notation "x <- m ;; k" := (bind m (fun x => k))
  (at level 61, m at next level, right associativity).

(** ** Python primitives *)

Module Py.

(** *** Numbers *)

Definition float : Type := spec_float.

Definition prec : Z := 53.

Definition emax : Z := 1024.

(** A Python number: the ceiling [max_size_mb] is an int in the
    script ([MAX_PDF_SIZE_MB = 25]) and may be a float. *)
Inductive number : Type :=
| Int (n : Z)
| Float (x : float).

(** [float(n)] on an int: rounding to nearest even,
    [OverflowError] beyond the largest float. *)
Definition float_of_int (n : Z) : outcome float :=
  match binary_normalize prec emax n 0 false with
  | S754_infinity _ => Raises OverflowError
  | x => Returns x
  end.

(** The float operand that a mixed operation makes of a number. *)
Definition to_float (a : number) : outcome float :=
  match a with
  | Int n => float_of_int n
  | Float x => Returns x
  end.

(** [x * y] on floats. *)
Definition mul (x y : float) : float := SFmul prec emax x y.

(** [x / y] on floats. *)
Definition truediv (x y : float) : outcome float :=
  if SFeqb y (S754_zero false) then Raises ZeroDivisionError
  else Returns (SFdiv prec emax x y).

(** An int as an unrounded binary number. *)
Definition exact (n : Z) : float :=
  match n with
  | Z0 => S754_zero false
  | Zpos p => S754_finite false p 0
  | Zneg p => S754_finite true p 0
  end.

(** [a / b] on ints: the quotient rounded once, to nearest even. *)
Definition int_truediv (a b : Z) : outcome float :=
  if b =? 0 then Raises ZeroDivisionError
  else
    match SFdiv prec emax (exact a) (exact b) with
    | S754_infinity _ => Raises OverflowError
    | q => Returns q
    end.

(** [a * x], a number and a float. *)
Definition mul_float (a : number) (x : float) : outcome float :=
  y <- to_float a ;; Returns (mul y x).

(** [a * n], a number and an int. *)
Definition mul_int (a : number) (n : Z) : outcome number :=
  match a with
  | Int m => Returns (Int (m * n))
  | Float x => y <- float_of_int n ;; Returns (Float (mul x y))
  end.

(** [n * a], an int and a number. *)
Definition int_mul (n : Z) (a : number) : outcome number :=
  match a with
  | Int m => Returns (Int (n * m))
  | Float x => y <- float_of_int n ;; Returns (Float (mul y x))
  end.

(** [a / n], a number by an int. *)
Definition truediv_int (a : number) (n : Z) : outcome float :=
  match a with
  | Int m => int_truediv m n
  | Float x => y <- float_of_int n ;; truediv x y
  end.

(** [a / x], a number by a float. *)
Definition truediv_float (a : number) (x : float) : outcome float :=
  y <- to_float a ;; truediv y x.

(** [x < y] on floats. *)
Definition lt (x y : float) : bool := SFltb x y.

(** [int(x)] on a float: truncation towards zero. *)
Definition int (x : float) : outcome Z :=
  match x with
  | S754_nan => Raises ValueError
  | S754_infinity _ => Raises OverflowError
  | S754_zero _ => Returns 0
  | S754_finite s m e =>
      let v := Z.shiftl (Z.pos m) e in
      Returns (if s then - v else v)
  end.

(** The literals [1.1], [0.7] and [0.9]: [0x1.199999999999ap+0],
    [0x1.6666666666666p-1] and [0x1.ccccccccccccdp-1]. *)
Definition float_1_1 : float := S754_finite false 4953959590107546 (-52).

Definition float_0_7 : float := S754_finite false 6305039478318694 (-53).

Definition float_0_9 : float := S754_finite false 8106479329266893 (-53).

(** The sign bit of a float that is not a NaN; a number below zero or
    a float with the sign bit. *)
Definition signbit (x : float) : bool :=
  match x with
  | S754_nan => false
  | S754_zero s | S754_infinity s | S754_finite s _ _ => s
  end.

Definition negative (a : number) : bool :=
  match a with
  | Int n => n <? 0
  | Float x => signbit x
  end.

(** *** Sequences and texts *)

(** Index normalisation of a slice bound, for a sequence of length [n]. *)
Definition clamp (n i : Z) : Z :=
  if i <? 0 then Z.max (i + n) 0 else Z.min i n.

(** [l[i:j]]. *)
Definition slice {A} (l : list A) (i j : Z) : list A :=
  let n := Z.of_nat (List.length l) in
  let a := clamp n i in
  let b := clamp n j in
  firstn (Z.to_nat (b - a)) (skipn (Z.to_nat a) l).

(** [str(n)] on an int. *)
Definition str (n : Z) : string :=
  NilZero.string_of_int (Z.to_int n).

Fixpoint zeros (k : nat) : string :=
  match k with
  | O => EmptyString
  | S k' => String "0" (zeros k')
  end.

(** The number that a text of decimal digits writes. *)
Definition int_of_str (s : string) : option Z :=
  option_map (fun d => Z.of_N (N.of_uint d)) (NilEmpty.uint_of_string s).

(** [format(n, "0{w}d")]: sign-aware zero padding to width [w]. *)
Definition fmt_0d (w : nat) (n : Z) : string :=
  if n <? 0 then
    let d := str (- n) in
    String "-" (zeros (w - 1 - String.length d) ++ d)
  else
    let d := str n in
    zeros (w - String.length d) ++ d.

End Py.

(** ** Texts *)

Module Str.

(** [c in s]. *)
Fixpoint contains (c : ascii) (s : string) : bool :=
  match s with
  | EmptyString => false
  | String a s' => Ascii.eqb a c || contains c s'
  end.

(** Every character of [s] satisfies [p]. *)
Fixpoint all (p : ascii -> bool) (s : string) : bool :=
  match s with
  | EmptyString => true
  | String a s' => p a && all p s'
  end.

(** [s[n:]]. *)
Fixpoint drop (n : nat) (s : string) : string :=
  match n, s with
  | O, _ => s
  | S n', String _ s' => drop n' s'
  | S _, EmptyString => EmptyString
  end.

Fixpoint map (f : ascii -> ascii) (s : string) : string :=
  match s with
  | EmptyString => EmptyString
  | String a s' => String (f a) (map f s')
  end.

End Str.

(** ** Regular expressions of [analyser_url]

    The two expressions are matched the way a backtracking matcher does:
    a lazy quantifier tries the shortest text first, a greedy one the
    longest; each function returns the first match in that order. *)

Module Re.

Definition obind {A B} (m : option A) (k : A -> option B) : option B :=
  match m with
  | Some a => k a
  | None => None
  end.

Notation "' p <-? m ;; k" := (obind m (fun p => k))
  (at level 61, p pattern, m at next level, right associativity).

Definition newline : ascii := "010"%char.

(** [\d] on code points below 256. *)
Definition is_digit (c : ascii) : bool :=
  let n := N_of_ascii c in ((48 <=? n) && (n <=? 57))%N.

(** ASCII lower case, for [re.IGNORECASE]. *)
Definition lower (c : ascii) : ascii :=
  let n := N_of_ascii c in
  if ((65 <=? n) && (n <=? 90))%N then ascii_of_N (n + 32) else c.

(** [\d{n}]: the digits matched and the rest of the text. *)
Fixpoint digits (n : nat) (s : string) : option (string * string) :=
  match n with
  | O => Some (EmptyString, s)
  | S n' =>
      match s with
      | String c s' =>
          if is_digit c then
            '(d, r) <-? digits n' s' ;; Some (String c d, r)
          else None
      | EmptyString => None
      end
  end.

(** A literal text [p]: the text matched and the rest. *)
Fixpoint lit (ignorecase : bool) (p s : string) : option (string * string) :=
  match p with
  | EmptyString => Some (EmptyString, s)
  | String a p' =>
      match s with
      | String c s' =>
          if (if ignorecase then Ascii.eqb (lower c) (lower a) else Ascii.eqb c a) then
            '(m, r) <-? lit ignorecase p' s' ;; Some (String c m, r)
          else None
      | EmptyString => None
      end
  end.

(** [$]: the end of the text, or just before a final line break. *)
Definition at_end (s : string) : bool :=
  match s with
  | EmptyString => true
  | String c EmptyString => Ascii.eqb c newline
  | _ => false
  end.

(** [[^/]*] (greedy) followed by [k]. *)
Fixpoint not_slash_star {X} (k : string -> option X) (s : string)
  : option (string * X) :=
  let stop := '(x) <-? k s ;; Some (EmptyString, x) in
  match s with
  | String c s' =>
      if Ascii.eqb c "/" then stop
      else
        match not_slash_star k s' with
        | Some (m, x) => Some (String c m, x)
        | None => stop
        end
  | EmptyString => stop
  end.

(** [[^/]+] (greedy) followed by [k]. *)
Definition not_slash_plus {X} (k : string -> option X) (s : string)
  : option (string * X) :=
  match s with
  | String c s' =>
      if Ascii.eqb c "/" then None
      else '(m, x) <-? not_slash_star k s' ;; Some (String c m, x)
  | EmptyString => None
  end.

(** [^(.*?)] followed by [k]; [.] does not match a line break. *)
Fixpoint any_lazy {X} (k : string -> option X) (s : string)
  : option (string * X) :=
  match k s with
  | Some x => Some (EmptyString, x)
  | None =>
      match s with
      | String c s' =>
          if Ascii.eqb c newline then None
          else '(p, x) <-? any_lazy k s' ;; Some (String c p, x)
      | EmptyString => None
      end
  end.

(** [(\d{4})(_\d{4}\.jpg)$]: groups 4 and 5 of the first expression. *)
Definition dossier_tail (s : string) : option (string * string) :=
  '(g4, s1) <-? digits 4 s ;;
  '(u, s2) <-? lit false "_" s1 ;;
  '(d, s3) <-? digits 4 s2 ;;
  '(e, s4) <-? lit false ".jpg" s3 ;;
  if at_end s4 then Some (g4, (u ++ d ++ e)%string) else None.

(** [(\d{4})/([^/]+)(\d{4})(_\d{4}\.jpg)$]: groups 2 to 5. *)
Definition dossier_body (s : string) : option (string * string * string * string) :=
  '(g2, s1) <-? digits 4 s ;;
  '(_, s2) <-? lit false "/" s1 ;;
  '(g3, (g4, g5)) <-? not_slash_plus dossier_tail s2 ;;
  Some (g2, g3, g4, g5).

(** [re.search(r'^(.*?)(\d{4})/([^/]+)(\d{4})(_\d{4}\.jpg)$', url)]. *)
Definition search_dossier (url : string)
  : option (string * (string * string * string * string)) :=
  any_lazy dossier_body url.

(** [(\d{4})(\.jpg)$] under [re.IGNORECASE]: groups 2 and 3. *)
Definition simple_body (s : string) : option (string * string) :=
  '(g2, s1) <-? digits 4 s ;;
  '(g3, s2) <-? lit true ".jpg" s1 ;;
  if at_end s2 then Some (g2, g3) else None.

(** [re.search(r'^(.*?)(\d{4})(\.jpg)$', url, re.IGNORECASE)]. *)
Definition search_simple (url : string) : option (string * (string * string)) :=
  any_lazy simple_body url.

End Re.

(** ** The URL pattern matcher: [analyser_url] and [generer_url] *)

Module Url.

(** The dictionary returned by [analyser_url]; the constructor is its
    ["type"] entry. *)
Inductive pattern : Type :=
| Dossier (prefix middle suffix : string) (digits : nat)
| Simple (prefix suffix : string) (digits : nat).

Section Url.

(** [requests.utils.unquote]. *)
Variable unquote : string -> string.

Definition analyser_url (url : string) : option pattern :=
  let url := unquote url in
  match Re.search_dossier url with
  | Some (g1, (_, g3, _, g5)) => Some (Dossier g1 g3 g5 4)
  | None =>
      match Re.search_simple url with
      | Some (g1, (g2, g3)) => Some (Simple g1 g3 (String.length g2))
      | None => None
      end
  end.

End Url.

Definition generer_url (p : pattern) (page : Z) : string :=
  match p with
  | Dossier prefix middle suffix _ =>
      (prefix ++ Py.fmt_0d 4 page ++ "/" ++ middle ++ Py.fmt_0d 4 page ++ suffix)%string
  | Simple prefix suffix digits =>
      (prefix ++ Py.fmt_0d digits page ++ suffix)%string
  end.

End Url.

(** ** The page fetcher: [telecharger_page] *)

Module Fetch.

(** What [requests.get] does: it raises (the text is [str(e)]) or it
    returns a response with its [status_code] and [content]. *)
Inductive get_result : Type :=
| GetRaises (e : string)
| GetReturns (status_code : Z) (content : list Byte.byte).

Fixpoint ends_with_slash (s : string) : bool :=
  match s with
  | EmptyString => false
  | String c EmptyString => Ascii.eqb c "/"
  | String _ s' => ends_with_slash s'
  end.

(** [os.path.join(a, b)] for a relative [b]. *)
Definition path_join (a b : string) : string :=
  match a with
  | EmptyString => b
  | _ => if ends_with_slash a then (a ++ b)%string else (a ++ "/" ++ b)%string
  end.

Definition page_filename (output_dir : string) (page : Z) : string :=
  path_join output_dir ("page_" ++ Py.fmt_0d 4 page ++ ".jpg")%string.

Section Fetch.

Variable requests_get : string -> get_result.

(** [open(filename, 'wb')] and [f.write(content)]: [None] when the file
    is written, [Some (str e)] when an exception [e] is raised. *)
Variable write_file : string -> list Byte.byte -> option string.

(** The triple [(page, filename, err)], [None] as in Python. *)
Definition result : Type := (Z * option string * option string)%type.

Definition telecharger_page (args : Z * string * string) : result :=
  let '(page, url, output_dir) := args in
  let filename := page_filename output_dir page in
  match requests_get url with
  | GetRaises e => (page, None, Some e)
  | GetReturns status_code content =>
      if (status_code =? 200) && (Z.of_nat (List.length content) >? 10000) then
        match write_file filename content with
        | None => (page, Some filename, None)
        | Some e => (page, None, Some e)
        end
      else
        (page, None, Some ("size=" ++ Py.str (Z.of_nat (List.length content)))%string)
  end.

End Fetch.

End Fetch.

(** ** The adaptive packer: [creer_pdf_split] *)

Module Packer.

Section Packer.

(** Decoded pages. *)
Variable image : Type.

(** [charger max_width f]: the body of the [try] of the inner [for]
    loop ([Image.open], [resize], [convert]); [None] when it raises. *)
Variable charger : Z -> string -> option image.

(** [taille_pdf pdf_name images]: [os.path.getsize(pdf_name)] after
    [images[0].save(pdf_name, save_all=True, append_images=images[1:], ...)]. *)
Variable taille_pdf : string -> list image -> N.

Variable fichiers : list string.
Variable output_base : string.

Variable max_size_mb : Py.number.

Variable max_width : Z.

(** An entry of [pdfs_crees]: [(pdf_name, taille_mo, len(images))]. *)
Definition pdf_info : Type := (string * Py.float * nat)%type.

(** The variables of the loop, and the documents saved so far. *)
Record state : Type := mkState {
  idx : Z;
  pages_par_pdf : Z;
  pdf_num : Z;
  pdfs_crees : list pdf_info;
  saved : list (string * list image)
}.

(** The inner [for f in batch_files] loop. *)
Fixpoint load (batch_files : list string) : list image :=
  match batch_files with
  | [] => []
  | f :: rest =>
      match charger max_width f with
      | Some img => img :: load rest
      | None => load rest
      end
  end.

(** The files that fail to decode, and their number in a list. *)
Definition decode_fails (f : string) : bool :=
  match charger max_width f with
  | Some _ => false
  | None => true
  end.

Definition decode_failures (l : list string) : nat :=
  List.length (filter decode_fails l).

(** [int(max_size_mb * 1024 / 350)]. *)
Definition seed_pages_par_pdf : outcome Z :=
  x <- Py.mul_int max_size_mb 1024 ;;
  q <- Py.truediv_int x 350 ;;
  Py.int q.

(** The estimate before the loop. *)
Definition initial_pages_par_pdf : outcome Z :=
  pages <- seed_pages_par_pdf ;;
  Returns (if pages >=? Z.of_nat (List.length fichiers)
           then Z.of_nat (List.length fichiers) else pages).

(** The [if]/[elif] that adjusts [pages_par_pdf] after a document is measured. *)
Definition ajuster (pages : Z) (taille_mo : Py.float) : outcome Z :=
  haut <- Py.mul_float max_size_mb Py.float_1_1 ;;
  if Py.lt haut taille_mo then
    x <- Py.int_mul pages max_size_mb ;;
    q <- Py.truediv_float x taille_mo ;;
    Py.int q
  else
    bas <- Py.mul_float max_size_mb Py.float_0_7 ;;
    if Py.lt taille_mo bas then
      x <- Py.int_mul pages max_size_mb ;;
      q <- Py.truediv_float x taille_mo ;;
      Py.int (Py.mul q Py.float_0_9)
    else Returns pages.

Definition pdf_name_of (num : Z) : string :=
  (output_base ++ "_" ++ Py.str num ++ ".pdf")%string.

(** [os.path.getsize(pdf_name) / (1024 * 1024)]. *)
Definition taille_mo_of (name : string) (images : list image) : outcome Py.float :=
  Py.int_truediv (Z.of_N (taille_pdf name images)) (1024 * 1024).

(** One pass through the body of the [while]. *)
Definition iteration (st : state) : outcome state :=
  let batch_files := Py.slice fichiers (idx st) (idx st + pages_par_pdf st) in
  let images := load batch_files in
  match images with
  | [] =>
      Returns (mkState (idx st + pages_par_pdf st) (pages_par_pdf st)
                       (pdf_num st) (pdfs_crees st) (saved st))
  | _ :: _ =>
      let pdf_name := pdf_name_of (pdf_num st) in
      taille_mo <- taille_mo_of pdf_name images ;;
      let pdfs := pdfs_crees st ++ [(pdf_name, taille_mo, List.length images)] in
      pages <- ajuster (pages_par_pdf st) taille_mo ;;
      Returns (mkState (idx st + Z.of_nat (List.length batch_files)) pages
                       (pdf_num st + 1) pdfs
                       (saved st ++ [(pdf_name, images)]))
  end.

(** The [while idx < len(fichiers)] loop. *)
Fixpoint boucle (fuel : nat) (st : state) : outcome state :=
  if idx st <? Z.of_nat (List.length fichiers) then
    match fuel with
    | O => OutOfFuel
    | S fuel' => st' <- iteration st ;; boucle fuel' st'
    end
  else Returns st.

Definition initial_state (pages : Z) : state :=
  mkState 0 pages 1 [] [].

Definition nonempty {A} (l : list A) : bool :=
  match l with
  | [] => false
  | _ :: _ => true
  end.

(** The invariant of the loop. [batches] lists the values taken by
    [batch_files] so far: consecutive slices that make up the files
    before [idx]; a document was saved for each batch with a decoded
    page, and [pdfs_crees] counts its pages. *)
Definition invariant (st : state) (batches : list (list string)) : Prop :=
  0 <= idx st /\
  0 <= pages_par_pdf st /\
  List.concat batches = firstn (Z.to_nat (idx st)) fichiers /\
  map snd (saved st) = filter nonempty (map load batches) /\
  map snd (pdfs_crees st) = map (fun d => List.length (snd d)) (saved st).

(** [creer_pdf_split(fichiers, output_base, max_size_mb, max_width)]:
    the returned list [pdfs_crees], with the documents written. *)
Definition creer_pdf_split (fuel : nat)
  : outcome (list pdf_info * list (string * list image)) :=
  pages <- initial_pages_par_pdf ;;
  st <- boucle fuel (initial_state pages) ;;
  Returns (pdfs_crees st, saved st).

End Packer.

End Packer.

(** ** The script: [main] *)

Module Main.

(** The constants of the CONFIGURATION block. *)
Record config : Type := mkConfig {
  EXEMPLE_URL : string;
  NB_PAGES : Z;
  PAGE_DEBUT : Z;
  OUTPUT_PDF : string;
  OUTPUT_DIR : string;
  MAX_PDF_SIZE_MB : Py.number;
  MAX_WIDTH : Z;
  NB_THREADS : Z
}.

(** [list.sort()] on a list of [str]: the order of [str] is the
    lexicographic order of the code points. *)
Module StringOrder <: TotalLeBool.

Definition t : Type := string.

Definition leb : t -> t -> bool := String.leb.

Theorem leb_total : forall a b, leb a b = true \/ leb b a = true.
Proof. exact String.leb_total. Qed.

End StringOrder.

Module StringSort := Sort StringOrder.

(** [range(a, b)]. *)
Definition range (a b : Z) : list Z :=
  map (fun i => a + Z.of_nat i) (seq 0 (Z.to_nat (b - a))).

(** What a run of [main] did. *)
Record report : Type := mkReport {
  requested : list string;               (* URLs given to [requests.get] *)
  fichiers : list string;                (* page files, as handed to the packer *)
  erreurs : list (Z * option string);    (* [(page, err)] *)
  pdfs : list Packer.pdf_info            (* the result of [creer_pdf_split] *)
}.

(** What the aggregation loop appends to [fichiers] and to [erreurs]
    for one result. *)
Definition success_of (r : Fetch.result) : list string :=
  match r with
  | (_, Some (String c f), _) => [String c f]
  | _ => []
  end.

Definition failure_of (r : Fetch.result) : list (Z * option string) :=
  match r with
  | (_, Some (String _ _), _) => []
  | (page, _, err) => [(page, err)]
  end.

Section Main.

Variable unquote : string -> string.
Variable requests_get : string -> Fetch.get_result.
Variable write_file : string -> list Byte.byte -> option string.

(** [as_completed(futures)]: the tasks in the order in which the
    workers of the pool finish them. *)
Variable as_completed : list (Z * string * string) -> list (Z * string * string).

Variable image : Type.
Variable charger : Z -> string -> option image.
Variable taille_pdf : string -> list image -> N.

Variable cfg : config.

Definition taches (pattern : Url.pattern) : list (Z * string * string) :=
  map (fun page => (page, Url.generer_url pattern page, OUTPUT_DIR cfg))
      (range (PAGE_DEBUT cfg) (PAGE_DEBUT cfg + NB_PAGES cfg)).

(** The body of [for future in as_completed(futures)], on the lists
    [fichiers] and [erreurs]. *)
Definition aggregate_one (acc : list string * list (Z * option string))
  (r : Fetch.result) : list string * list (Z * option string) :=
  let '(page, filepath, err) := r in
  match filepath with
  | Some (String c f) => (fst acc ++ [String c f], snd acc)
  | _ => (fst acc, snd acc ++ [(page, err)])
  end.

Definition aggregate (results : list Fetch.result)
  : list string * list (Z * option string) :=
  fold_left aggregate_one results ([], []).

(** The thread pool and the aggregation loop: [fichiers] and [erreurs]
    when the [with] block ends. *)
Definition download (pattern : Url.pattern)
  : list string * list (Z * option string) :=
  aggregate (map (Fetch.telecharger_page requests_get write_file)
                 (as_completed (taches pattern))).

(** [fichiers] after [fichiers.sort()], and [erreurs]. *)
Definition fetch_all (pattern : Url.pattern)
  : list string * list (Z * option string) :=
  (StringSort.sort (fst (download pattern)), snd (download pattern)).

Definition main (fuel : nat) : outcome report :=
  match Url.analyser_url unquote (EXEMPLE_URL cfg) with
  | None => Returns (mkReport [] [] [] [])
  | Some pattern =>
      let urls := map (fun t => snd (fst t)) (as_completed (taches pattern)) in
      match fst (download pattern) with
      | [] => Returns (mkReport urls [] (snd (download pattern)) [])
      | _ :: _ =>
          let '(sorted, errs) := fetch_all pattern in
          r <- Packer.creer_pdf_split image charger taille_pdf sorted
                 (OUTPUT_PDF cfg) (MAX_PDF_SIZE_MB cfg) (MAX_WIDTH cfg) fuel ;;
          Returns (mkReport urls sorted errs (fst r))
      end
  end.

End Main.

End Main.

(** ** The numbering of the documents *)

Module Numbering.

Section Numbering.

Variable image : Type.
Variable output_base : string.

(** The documents recorded in a state of the loop of [creer_pdf_split]
    are numbered from [first] in the order in which they are written,
    and [pdf_num] is the next number. *)
Definition numbered (first : Z) (st : Packer.state image) : Prop :=
  Packer.pdf_num _ st = first + Z.of_nat (List.length (Packer.pdfs_crees _ st)) /\
  map (fun d => fst (fst d)) (Packer.pdfs_crees _ st) =
    map (Packer.pdf_name_of output_base)
        (Main.range first (first + Z.of_nat (List.length (Packer.pdfs_crees _ st)))) /\
  map fst (Packer.saved _ st) = map (fun d => fst (fst d)) (Packer.pdfs_crees _ st).

End Numbering.

End Numbering.

(** ** The shapes of sample URLs, in the words of the specification *)

Module Spec.

(** [floor(x)] on a float ([math.floor]): the largest integer that is
    not above [x]. *)
Definition floor (x : Py.float) : outcome Z :=
  match x with
  | S754_nan => Raises ValueError
  | S754_infinity _ => Raises OverflowError
  | S754_zero _ => Returns 0
  | S754_finite s m e => Returns (Z.shiftl (if s then Z.neg m else Z.pos m) e)
  end.

Definition all_digits (s : string) : bool := Str.all Re.is_digit s.

Definition no_slash (s : string) : bool := negb (Str.contains "/" s).

Definition single_line (s : string) : bool := negb (Str.contains Re.newline s).

(** A file suffix such as [.jpg]: a text without separator that
    holds a dot. *)
Definition file_suffix (s : string) : bool :=
  no_slash s && Str.contains "." s.

Fixpoint ends_with_digit (s : string) : bool :=
  match s with
  | EmptyString => false
  | String c EmptyString => Re.is_digit c
  | String _ s' => ends_with_digit s'
  end.

(** Folder shape: a folder segment of exactly four digits, a
    separator, then a segment that ends in the same four digits and a
    file suffix; [n] is the page number of the sample. *)
Definition folder_shape (u : string) (n : Z) : Prop :=
  exists before num seg suf,
    u = (before ++ "/" ++ num ++ "/" ++ seg ++ num ++ suf)%string /\
    String.length num = 4%nat /\ all_digits num = true /\
    Py.int_of_str num = Some n /\
    no_slash seg = true /\ file_suffix suf = true.

(** Simple shape: the text ends in one or more digits and a file
    suffix; [width] is the number of digits of the sample. *)
Definition simple_shape (u : string) (width : nat) : Prop :=
  exists before num suf,
    u = (before ++ num ++ suf)%string /\
    String.length num = width /\ (1 <= width)%nat /\ all_digits num = true /\
    ends_with_digit before = false /\
    file_suffix suf = true.

(** The pages that answer 200 in the simulated backend: all but 3 and 7. *)
Definition answers (page : Z) : bool :=
  negb ((page =? 3) || (page =? 7)).

(** [.jpg] in any letter case. *)
Definition jpg_suffix (s : string) : bool :=
  String.eqb (Str.map Re.lower s) ".jpg".

End Spec.

(** ** Sample inputs *)

Module Example.

(** Page files that all decode, to an image without content. *)
Definition charger_ok : Z -> string -> option unit :=
  fun _ _ => Some tt.

(** Page files named after their decoded image; the second page of
    the run is corrupt. *)
Definition charger_named : Z -> string -> option string :=
  fun _ f => if String.eqb f "temp/page_0002.jpg" then None else Some f.

(** Every document written measures 3 MiB. *)
Definition taille_3_mo : string -> list unit -> N :=
  fun _ _ => 3145728%N.

(** Every document written measures 400 KiB. *)
Definition taille_400_ko : string -> list unit -> N :=
  fun _ _ => 409600%N.

(** A document of 500000 bytes per page. *)
Definition taille_par_page : string -> list string -> N :=
  fun _ images => (500000 * N.of_nat (List.length images))%N.

(** A document of 30 MiB. *)
Definition taille_30_mo : string -> list unit -> N :=
  fun _ _ => 31457280%N.

(** The float [0.3]: [0x1.3333333333333p-2]. *)
Definition float_0_3 : Py.float := S754_finite false 5404319552844595 (-54).

Definition one_file : list string :=
  ["temp/page_0001.jpg"%string].

Definition three_files : list string :=
  ["temp/page_0001.jpg"; "temp/page_0002.jpg"; "temp/page_0003.jpg"]%string.

Definition four_files : list string :=
  ["temp/page_0001.jpg"; "temp/page_0002.jpg"; "temp/page_0003.jpg";
   "temp/page_0004.jpg"]%string.

(** The value of a hexadecimal digit. *)
Definition hex_value (c : ascii) : option N :=
  let n := N_of_ascii c in
  if ((48 <=? n) && (n <=? 57))%N then Some (n - 48)%N
  else if ((65 <=? n) && (n <=? 70))%N then Some (n - 55)%N
  else if ((97 <=? n) && (n <=? 102))%N then Some (n - 87)%N
  else None.

(** [urllib.parse.unquote] on the texts whose escapes denote ASCII
    characters ([%00] to [%7F]): each escape becomes its character, a
    [%] that two hexadecimal digits do not follow stays. Escapes from
    [%80] on, which the library decodes as UTF-8, are outside this
    sample decoder and stay as they are. *)
Fixpoint unquote (s : string) : string :=
  match s with
  | EmptyString => EmptyString
  | String c s' =>
      let keep := String c (unquote s') in
      if Ascii.eqb c "%" then
        match s' with
        | String a (String b rest) =>
            match hex_value a, hex_value b with
            | Some x, Some y =>
                if (16 * x + y <? 128)%N
                then String (ascii_of_N (16 * x + y)) (unquote rest)
                else keep
            | _, _ => keep
            end
        | _ => keep
        end
      else keep
  end.

(** The sample of the CONFIGURATION block. *)
Definition sample_url : string :=
  "https://archives.haute-garonne.fr/archive/download?file=https://archives.haute-garonne.fr/data/files/ad31.diffusion/images/alto/Ged14/Thot/archives_ecrites/1NUM_AC_3201_3400/1_NUM_AC_3217/FRAD031_00001_NUM_AC_003217_0010/FRAD031_00001_NUM_AC_003217_0010_0001.jpg".

Definition sample_prefix : string :=
  "https://archives.haute-garonne.fr/archive/download?file=https://archives.haute-garonne.fr/data/files/ad31.diffusion/images/alto/Ged14/Thot/archives_ecrites/1NUM_AC_3201_3400/1_NUM_AC_3217/FRAD031_00001_NUM_AC_003217_".

(** A backend for pages 1 to 10 of [http://h/p0001.jpg]: pages 3 and 7
    answer 404, the others 200 with [size] bytes. *)
Definition backend (size : Z) (url : string) : Fetch.get_result :=
  if String.eqb url "http://h/p0003.jpg" || String.eqb url "http://h/p0007.jpg"
  then Fetch.GetReturns 404 []
  else Fetch.GetReturns 200 (repeat Byte.x00 (Z.to_nat size)).

Definition write_ok : string -> list Byte.byte -> option string :=
  fun _ _ => None.

Definition disk_full : string -> list Byte.byte -> option string :=
  fun _ _ => Some "[Errno 28] No space left on device"%string.

(** Workers that finish in the reverse order of submission. *)
Definition last_first : list (Z * string * string) -> list (Z * string * string) :=
  @List.rev _.

(** The configuration of the script, for a sample and a number of
    pages. *)
Definition config (url : string) (nb_pages : Z) : Main.config :=
  Main.mkConfig url nb_pages 1 "Cadastre" "temp" (Py.Int 25) 2000 20.

Definition pattern : Url.pattern :=
  Url.Simple "http://h/p" ".jpg" 4.


(** Page files that all fail to decode. *)
Definition charger_corrupt : Z -> string -> option unit :=
  fun _ _ => None.

End Example.

(** * Properties *)

(** ** Python primitives *)

Module PyFacts.

(** Rounding keeps the sign. *)
Lemma signbit_round (m e : Z) (l : location) :
  Py.signbit (binary_round_aux Py.prec Py.emax false m e l) = false.
Proof.
  unfold binary_round_aux.
  destruct (shr_fexp Py.prec Py.emax m e l) as [mrs e1].
  destruct (shr_fexp Py.prec Py.emax _ e1 loc_Exact) as [mrs' e2].
  destruct (shr_m mrs'); try reflexivity.
  destruct (e2 <=? Py.emax - Py.prec); reflexivity.
Qed.

Lemma signbit_mul (x y : Py.float) :
  Py.signbit x = false -> Py.signbit y = false ->
  Py.signbit (Py.mul x y) = false.
Proof.
  destruct x as [sx|sx| |sx mx ex], y as [sy|sy| |sy my ey];
    simpl; intros Hx Hy; subst; try reflexivity.
  apply signbit_round.
Qed.

Lemma signbit_div (x y : Py.float) :
  Py.signbit x = false -> Py.signbit y = false ->
  Py.signbit (SFdiv Py.prec Py.emax x y) = false.
Proof.
  destruct x as [sx|sx| |sx mx ex], y as [sy|sy| |sy my ey];
    simpl; intros Hx Hy; subst; try reflexivity.
  destruct (SFdiv_core_binary Py.prec Py.emax _ _ _ _) as [[mz ez] lz].
  apply signbit_round.
Qed.

Lemma signbit_truediv (x y q : Py.float) :
  Py.signbit x = false -> Py.signbit y = false ->
  Py.truediv x y = Returns q -> Py.signbit q = false.
Proof.
  intros Hx Hy. unfold Py.truediv.
  destruct (SFeqb y (S754_zero false)); [discriminate|].
  intros [= <-]. now apply signbit_div.
Qed.

Lemma signbit_float_of_int (n : Z) (x : Py.float) :
  0 <= n -> Py.float_of_int n = Returns x -> Py.signbit x = false.
Proof.
  intros Hn. unfold Py.float_of_int.
  assert (H : Py.signbit (binary_normalize Py.prec Py.emax n 0 false) = false).
  { destruct n as [|p|p]; [reflexivity| |lia].
    unfold binary_normalize, binary_round.
    destruct (shl_align p 0 _) as [mz ez].
    apply signbit_round. }
  destruct (binary_normalize Py.prec Py.emax n 0 false);
    try discriminate; intros [= <-]; exact H.
Qed.

Lemma signbit_exact (n : Z) : 0 <= n -> Py.signbit (Py.exact n) = false.
Proof. destruct n; simpl; [reflexivity|reflexivity|lia]. Qed.

Lemma signbit_int_truediv (a b : Z) (q : Py.float) :
  0 <= a -> 0 <= b -> Py.int_truediv a b = Returns q -> Py.signbit q = false.
Proof.
  intros Ha Hb. unfold Py.int_truediv.
  destruct (b =? 0); [discriminate|].
  pose proof (signbit_div _ _ (signbit_exact a Ha) (signbit_exact b Hb)) as H.
  destruct (SFdiv Py.prec Py.emax (Py.exact a) (Py.exact b));
    try discriminate; intros [= <-]; exact H.
Qed.

Lemma signbit_to_float (a : Py.number) (x : Py.float) :
  Py.negative a = false -> Py.to_float a = Returns x -> Py.signbit x = false.
Proof.
  destruct a as [n|y]; simpl.
  - intros H. apply signbit_float_of_int. now apply Z.ltb_ge.
  - now intros H [= <-].
Qed.

Lemma negative_int_mul (n : Z) (a b : Py.number) :
  0 <= n -> Py.negative a = false ->
  Py.int_mul n a = Returns b -> Py.negative b = false.
Proof.
  intros Hn. destruct a as [m|x]; simpl.
  - intros H [= <-]. simpl. apply Z.ltb_ge. apply Z.ltb_ge in H. nia.
  - intros H. destruct (Py.float_of_int n) as [y| |] eqn:E; simpl; try discriminate.
    intros [= <-]. simpl. apply signbit_mul; [|assumption].
    now apply (signbit_float_of_int n).
Qed.

Lemma negative_mul_int (a b : Py.number) (n : Z) :
  0 <= n -> Py.negative a = false ->
  Py.mul_int a n = Returns b -> Py.negative b = false.
Proof.
  intros Hn. destruct a as [m|x]; simpl.
  - intros H [= <-]. simpl. apply Z.ltb_ge. apply Z.ltb_ge in H. nia.
  - intros H. destruct (Py.float_of_int n) as [y| |] eqn:E; simpl; try discriminate.
    intros [= <-]. simpl. apply signbit_mul; [assumption|].
    now apply (signbit_float_of_int n).
Qed.

Lemma signbit_truediv_int (a : Py.number) (n : Z) (q : Py.float) :
  0 <= n -> Py.negative a = false ->
  Py.truediv_int a n = Returns q -> Py.signbit q = false.
Proof.
  intros Hn. destruct a as [m|x]; simpl.
  - intros H. apply signbit_int_truediv; [|assumption]. now apply Z.ltb_ge.
  - intros H. destruct (Py.float_of_int n) as [y| |] eqn:E; simpl; try discriminate.
    intros Hq. apply (signbit_truediv x y); [assumption| |assumption].
    now apply (signbit_float_of_int n).
Qed.

Lemma signbit_truediv_float (a : Py.number) (x q : Py.float) :
  Py.negative a = false -> Py.signbit x = false ->
  Py.truediv_float a x = Returns q -> Py.signbit q = false.
Proof.
  intros Ha Hx. unfold Py.truediv_float.
  destruct (Py.to_float a) as [y| |] eqn:E; simpl; try discriminate.
  apply signbit_truediv; [|assumption].
  now apply (signbit_to_float a).
Qed.

(** Without the sign bit, [int] rounds down. *)
Lemma int_floor (x : Py.float) :
  Py.signbit x = false -> Py.int x = Spec.floor x.
Proof. destruct x as [s|s| |s m e]; simpl; intros H; subst; reflexivity. Qed.

Lemma int_nonneg (x : Py.float) (n : Z) :
  Py.signbit x = false -> Py.int x = Returns n -> 0 <= n.
Proof.
  destruct x as [s|s| |s m e]; simpl; try discriminate.
  - intros _ [= <-]. lia.
  - intros H [= <-]. subst. apply Z.shiftl_nonneg. lia.
Qed.

Lemma slice_empty {A} (l : list A) (i : Z) : Py.slice l i i = [].
Proof. unfold Py.slice. rewrite Z.sub_diag. reflexivity. Qed.

(** Inside the list, a slice with a non-negative length is a [firstn]
    of a [skipn]. *)
Lemma slice_firstn_skipn {A} (l : list A) (i k : Z) :
  0 <= i <= Z.of_nat (List.length l) -> 0 <= k ->
  Py.slice l i (i + k) = firstn (Z.to_nat k) (skipn (Z.to_nat i) l).
Proof.
  intros Hi Hk. unfold Py.slice, Py.clamp.
  destruct (Z.ltb_spec i 0); [lia|].
  destruct (Z.ltb_spec (i + k) 0); [lia|].
  rewrite (Z.min_l i) by lia.
  destruct (Z.le_ge_cases (i + k) (Z.of_nat (List.length l))) as [L|G].
  - rewrite Z.min_l by lia. f_equal. lia.
  - rewrite Z.min_r by lia.
    rewrite !firstn_all2; try reflexivity; rewrite length_skipn; lia.
Qed.

Lemma firstn_extend {A} (l : list A) (i k : nat) :
  firstn (i + k) l = firstn i l ++ firstn k (skipn i l).
Proof.
  revert l. induction i as [|i IH]; intros l; simpl.
  - reflexivity.
  - destruct l as [|x l]; simpl.
    + now rewrite firstn_nil.
    + now rewrite IH.
Qed.

End PyFacts.

(** ** The adaptive packer *)

Module PackerFacts.

Import Packer.

Section PackerFacts.

Context (image : Type).
Context (charger : Z -> string -> option image).
Context (taille_pdf : string -> list image -> N).
Context (fichiers : list string) (output_base : string).
Context (max_size_mb : Py.number) (max_width : Z).

Local Abbreviation load := (load image charger max_width).
Local Abbreviation iteration :=
  (iteration image charger taille_pdf fichiers output_base max_size_mb max_width).
Local Abbreviation boucle :=
  (boucle image charger taille_pdf fichiers output_base max_size_mb max_width).
Local Abbreviation ajuster := (ajuster max_size_mb).
Local Abbreviation taille_mo_of := (taille_mo_of image taille_pdf).
Local Abbreviation state := (state image).

Lemma load_app (a b : list string) : load (a ++ b) = load a ++ load b.
Proof.
  induction a as [|f a IH]; simpl; [reflexivity|].
  destruct (charger max_width f); simpl; now rewrite IH.
Qed.

(** The number of pages decoded is the number of files minus the
    number of files that fail to decode. *)
Lemma length_load (l : list string) :
  List.length (load l) =
  (List.length l - decode_failures image charger max_width l)%nat.
Proof.
  unfold decode_failures.
  induction l as [|f l IH]; [reflexivity|].
  pose proof (filter_length_le (decode_fails image charger max_width) l) as Hle.
  cbn [Packer.load filter]. unfold decode_fails at 1.
  destruct (charger max_width f); cbn [List.length]; rewrite IH; lia.
Qed.

Lemma taille_mo_nonneg (name : string) (images : list image) (taille_mo : Py.float) :
  taille_mo_of name images = Returns taille_mo -> Py.signbit taille_mo = false.
Proof. unfold Packer.taille_mo_of. apply PyFacts.signbit_int_truediv; lia. Qed.

(** With an estimate of zero the loop body changes nothing. *)
Lemma iteration_zero (st : state) :
  pages_par_pdf _ st = 0 ->
  iteration st =
  Returns (mkState image (idx _ st + 0) 0 (pdf_num _ st) (pdfs_crees _ st) (saved _ st)).
Proof.
  intros H. unfold Packer.iteration. rewrite H, Z.add_0_r.
  rewrite PyFacts.slice_empty. reflexivity.
Qed.

(** An estimate of zero before the end of the list: the loop never stops. *)
Lemma boucle_stuck (fuel : nat) (st : state) :
  pages_par_pdf _ st = 0 ->
  idx _ st < Z.of_nat (List.length fichiers) ->
  boucle fuel st = OutOfFuel.
Proof.
  revert st. induction fuel as [|fuel IH]; intros st H0 Hlt; simpl;
    destruct (Z.ltb_spec (idx _ st) (Z.of_nat (List.length fichiers))); try lia.
  - reflexivity.
  - rewrite iteration_zero by assumption. simpl.
    apply IH; simpl; lia.
Qed.

(** [pages_par_pdf * max_size_mb / taille_mo] has no sign bit. *)
Lemma ratio_nonneg (pages : Z) (taille_mo q : Py.float) :
  Py.negative max_size_mb = false -> 0 <= pages ->
  Py.signbit taille_mo = false ->
  (x <- Py.int_mul pages max_size_mb ;; Py.truediv_float x taille_mo) = Returns q ->
  Py.signbit q = false.
Proof.
  intros Hm Hp Ht.
  destruct (Py.int_mul pages max_size_mb) as [x| |] eqn:Ex; simpl; try discriminate.
  apply PyFacts.signbit_truediv_float; [|assumption].
  now apply (PyFacts.negative_int_mul pages max_size_mb).
Qed.

Lemma ajuster_nonneg (pages pages' : Z) (taille_mo : Py.float) :
  Py.negative max_size_mb = false -> 0 <= pages ->
  Py.signbit taille_mo = false ->
  ajuster pages taille_mo = Returns pages' -> 0 <= pages'.
Proof.
  intros Hm Hp Ht. unfold Packer.ajuster.
  pose proof (ratio_nonneg pages taille_mo) as Hr.
  destruct (Py.mul_float max_size_mb Py.float_1_1) as [haut| |];
    simpl; try discriminate.
  destruct (Py.lt haut taille_mo).
  - destruct (Py.int_mul pages max_size_mb) as [x| |]; simpl in *; try discriminate.
    destruct (Py.truediv_float x taille_mo) as [q| |]; simpl; try discriminate.
    apply PyFacts.int_nonneg. now apply Hr.
  - destruct (Py.mul_float max_size_mb Py.float_0_7) as [bas| |];
      simpl; try discriminate.
    destruct (Py.lt taille_mo bas).
    + destruct (Py.int_mul pages max_size_mb) as [x| |]; simpl in *; try discriminate.
      destruct (Py.truediv_float x taille_mo) as [q| |]; simpl; try discriminate.
      apply PyFacts.int_nonneg. apply PyFacts.signbit_mul; [|reflexivity].
      now apply Hr.
    + now intros [= <-].
Qed.

Lemma seed_pages_nonneg (pages : Z) :
  Py.negative max_size_mb = false ->
  seed_pages_par_pdf max_size_mb = Returns pages -> 0 <= pages.
Proof.
  intros Hm. unfold seed_pages_par_pdf.
  destruct (Py.mul_int max_size_mb 1024) as [x| |] eqn:Ex; simpl; try discriminate.
  destruct (Py.truediv_int x 350) as [q| |] eqn:Eq; simpl; try discriminate.
  apply PyFacts.int_nonneg.
  apply (PyFacts.signbit_truediv_int x 350); [lia| |assumption].
  apply (PyFacts.negative_mul_int max_size_mb x 1024); [lia|assumption|assumption].
Qed.

Lemma initial_pages_nonneg (pages : Z) :
  Py.negative max_size_mb = false ->
  initial_pages_par_pdf fichiers max_size_mb = Returns pages -> 0 <= pages.
Proof.
  intros Hm. unfold initial_pages_par_pdf.
  destruct (seed_pages_par_pdf max_size_mb) as [seed| |] eqn:Es;
    simpl; try discriminate.
  apply seed_pages_nonneg in Es; [|assumption].
  intros [= <-].
  destruct (seed >=? Z.of_nat (List.length fichiers)); lia.
Qed.

Lemma invariant_initial (pages : Z) :
  0 <= pages ->
  invariant image charger fichiers max_width (initial_state image pages) [].
Proof.
  intros Hp. unfold invariant. simpl.
  repeat split; try reflexivity; lia.
Qed.

Lemma iteration_nonempty (st : state) :
  let batch_files :=
    Py.slice fichiers (idx _ st) (idx _ st + pages_par_pdf _ st) in
  let pdf_name := pdf_name_of output_base (pdf_num _ st) in
  load batch_files <> [] ->
  iteration st =
  (taille_mo <- taille_mo_of pdf_name (load batch_files) ;;
   pages <- ajuster (pages_par_pdf _ st) taille_mo ;;
   Returns (mkState image
              (idx _ st + Z.of_nat (List.length batch_files)) pages
              (pdf_num _ st + 1)
              (pdfs_crees _ st ++
                 [(pdf_name, taille_mo, List.length (load batch_files))])
              (saved _ st ++ [(pdf_name, load batch_files)]))).
Proof.
  intros batch_files pdf_name. unfold Packer.iteration.
  fold batch_files. fold pdf_name.
  destruct (load batch_files); [congruence|reflexivity].
Qed.

(** One pass of the body takes the next slice of the list as its batch
    and keeps the invariant. *)
Lemma invariant_iteration (st st' : state) (batches : list (list string)) :
  Py.negative max_size_mb = false ->
  invariant image charger fichiers max_width st batches ->
  idx _ st < Z.of_nat (List.length fichiers) ->
  iteration st = Returns st' ->
  invariant image charger fichiers max_width st'
    (batches ++ [Py.slice fichiers (idx _ st) (idx _ st + pages_par_pdf _ st)]).
Proof.
  intros Hm (Hi & Hp & Hc & Hs & Hn) Hlt.
  unfold Packer.iteration.
  rewrite PyFacts.slice_firstn_skipn by lia.
  set (i := Z.to_nat (idx _ st)) in *.
  set (k := Z.to_nat (pages_par_pdf _ st)).
  set (batch := firstn k (skipn i fichiers)).
  assert (Hcat : List.concat (batches ++ [batch]) = firstn (i + k) fichiers).
  { rewrite List.concat_app, Hc. simpl. rewrite app_nil_r.
    symmetry. apply PyFacts.firstn_extend. }
  assert (Hlen : List.length batch = Nat.min k (List.length fichiers - i)).
  { unfold batch. now rewrite length_firstn, length_skipn. }
  destruct (load batch) as [|img images] eqn:Himg.
  - intros [= <-]. unfold invariant. simpl.
    repeat split; try lia; try assumption.
    + rewrite Hcat. f_equal. lia.
    + rewrite map_app, filter_app. simpl. rewrite Himg. simpl.
      now rewrite app_nil_r.
  - destruct (taille_mo_of _ (img :: images)) as [taille_mo| |] eqn:Ht;
      simpl; try discriminate.
    destruct (ajuster (pages_par_pdf _ st) taille_mo) as [pages'| |] eqn:Haj;
      simpl; try discriminate.
    intros [= <-]. unfold invariant. simpl.
    repeat split; try lia.
    + exact (ajuster_nonneg _ _ _ Hm Hp (taille_mo_nonneg _ _ _ Ht) Haj).
    + rewrite Hcat.
      destruct (Nat.le_ge_cases k (List.length fichiers - i)).
      * f_equal. lia.
      * rewrite !firstn_all2; try reflexivity; lia.
    + rewrite !map_app, filter_app, Hs. simpl. rewrite Himg. reflexivity.
    + rewrite !map_app. f_equal. exact Hn.
Qed.

Lemma invariant_boucle (fuel : nat) (st st' : state) (batches : list (list string)) :
  Py.negative max_size_mb = false ->
  invariant image charger fichiers max_width st batches ->
  boucle fuel st = Returns st' ->
  exists batches',
    invariant image charger fichiers max_width st' batches' /\
    Z.of_nat (List.length fichiers) <= idx _ st'.
Proof.
  intros Hm. revert st batches.
  induction fuel as [|fuel IH]; intros st batches Hinv; simpl;
    destruct (Z.ltb_spec (idx _ st) (Z.of_nat (List.length fichiers))) as [Hlt|Hge];
    try discriminate;
    try (intros [= <-]; exists batches; split; [assumption|lia]).
  destruct (iteration st) as [st1| |] eqn:Hit; simpl; try discriminate.
  intros Hb. eapply IH; [|exact Hb].
  eapply invariant_iteration; eassumption.
Qed.

Lemma list_sum_nonempty {A} (ls : list (list A)) :
  list_sum (map (@List.length A) (filter nonempty ls)) = List.length (List.concat ls).
Proof.
  induction ls as [|l ls IH]; simpl; [reflexivity|].
  rewrite length_app. destruct l; simpl; lia.
Qed.

Lemma load_concat (bs : list (list string)) :
  load (List.concat bs) = List.concat (map load bs).
Proof.
  induction bs as [|b bs IH]; simpl; [reflexivity|].
  now rewrite load_app, IH.
Qed.

Lemma boucle_step (fuel : nat) (st st' : state) (r : outcome state) :
  idx _ st < Z.of_nat (List.length fichiers) ->
  iteration st = Returns st' ->
  boucle fuel st' = r ->
  boucle (S fuel) st = r.
Proof.
  intros Hlt Hit Hr. simpl.
  destruct (Z.ltb_spec (idx _ st) (Z.of_nat (List.length fichiers))); [|lia].
  now rewrite Hit.
Qed.

Lemma boucle_done (fuel : nat) (st : state) :
  Z.of_nat (List.length fichiers) <= idx _ st ->
  boucle fuel st = Returns st.
Proof.
  intros Hge. destruct fuel; simpl;
    destruct (Z.ltb_spec (idx _ st) (Z.of_nat (List.length fichiers)));
    try lia; reflexivity.
Qed.

(** C7. Whenever [creer_pdf_split] returns (for a ceiling that is not
    negative), the page counts of the returned documents add up to the
    number of input files minus the number of files that failed to
    decode; and the batches are consecutive slices of the file list
    that make it up, each document holding the decoded pages of one
    batch, so that no file goes into two documents. *)
Theorem creer_pdf_split_coverage (fuel : nat) (pdfs : list pdf_info)
    (docs : list (string * list image)) :
  Py.negative max_size_mb = false ->
  creer_pdf_split image charger taille_pdf fichiers output_base
    max_size_mb max_width fuel = Returns (pdfs, docs) ->
  list_sum (map snd pdfs) =
    (List.length fichiers - decode_failures image charger max_width fichiers)%nat /\
  map snd pdfs = map (fun d => List.length (snd d)) docs /\
  exists batches : list (list string),
    List.concat batches = fichiers /\
    map snd docs = filter nonempty (map load batches).
Proof.
  intros Hm. unfold creer_pdf_split.
  destruct (initial_pages_par_pdf fichiers max_size_mb) as [pages| |] eqn:Hp;
    simpl; try discriminate.
  destruct (boucle fuel _) as [st| |] eqn:Hb; simpl; try discriminate.
  intros [= <- <-].
  apply initial_pages_nonneg in Hp; [|assumption].
  destruct (invariant_boucle _ _ _ _ Hm (invariant_initial pages Hp) Hb)
    as (batches & (Hi & Hq & Hc & Hs & Hn) & Hge).
  rewrite firstn_all2 in Hc by lia.
  assert (Hdocs : map (fun d : string * list image => List.length (snd d)) (saved _ st)
                  = map (@List.length image) (map snd (saved _ st))).
  { now rewrite map_map. }
  repeat split.
  - rewrite Hn, Hdocs, Hs, list_sum_nonempty, <- load_concat, Hc.
    apply length_load.
  - exact Hn.
  - exists batches. split; assumption.
Qed.

(** C3. One pass of the loop body that writes a document (non-empty
    batch, measured at [taille_mo]), for a ceiling and an estimate that
    are not negative, in the float arithmetic of the code: the document
    recorded is the one built from the estimate in force before the
    pass and the documents recorded before are kept; the estimate for
    the next pass is [floor(estimate * ceiling / size)] when the size
    exceeds [ceiling * 1.1], [floor(estimate * ceiling / size * 0.9)]
    when it is below [ceiling * 0.7], and unchanged otherwise. *)
Theorem feedback_correction (st : state) (taille_mo haut bas : Py.float) :
  let estimate := pages_par_pdf _ st in
  let batch_files := Py.slice fichiers (idx _ st) (idx _ st + estimate) in
  let images := load batch_files in
  let pdf_name := pdf_name_of output_base (pdf_num _ st) in
  let ratio :=
    x <- Py.int_mul estimate max_size_mb ;; Py.truediv_float x taille_mo in
  let next := fun estimate' : Z =>
    mkState image (idx _ st + Z.of_nat (List.length batch_files)) estimate'
      (pdf_num _ st + 1)
      (pdfs_crees _ st ++ [(pdf_name, taille_mo, List.length images)])
      (saved _ st ++ [(pdf_name, images)]) in
  Py.negative max_size_mb = false -> 0 <= estimate ->
  images <> [] ->
  taille_mo_of pdf_name images = Returns taille_mo ->
  Py.mul_float max_size_mb Py.float_1_1 = Returns haut ->
  Py.mul_float max_size_mb Py.float_0_7 = Returns bas ->
  (Py.lt haut taille_mo = true ->
     iteration st =
     (q <- ratio ;; estimate' <- Spec.floor q ;; Returns (next estimate'))) /\
  (Py.lt haut taille_mo = false -> Py.lt taille_mo bas = true ->
     iteration st =
     (q <- ratio ;;
      estimate' <- Spec.floor (Py.mul q Py.float_0_9) ;;
      Returns (next estimate'))) /\
  (Py.lt haut taille_mo = false -> Py.lt taille_mo bas = false ->
     iteration st = Returns (next estimate)).
Proof.
  intros estimate batch_files images pdf_name ratio next Hm He Himg Ht Hh Hb.
  pose proof (ratio_nonneg estimate taille_mo) as Hr.
  pose proof (taille_mo_nonneg _ _ _ Ht) as Hs.
  rewrite iteration_nonempty by assumption.
  fold estimate batch_files images pdf_name.
  rewrite Ht. cbn [bind]. unfold Packer.ajuster. rewrite Hh. cbn [bind].
  unfold ratio.
  repeat split.
  - intros E1. rewrite E1.
    destruct (Py.int_mul estimate max_size_mb) as [x| |];
      cbn [bind] in *; try reflexivity.
    destruct (Py.truediv_float x taille_mo) as [q| |];
      cbn [bind]; try reflexivity.
    rewrite PyFacts.int_floor by now apply Hr.
    reflexivity.
  - intros E1 E2. rewrite E1, Hb. cbn [bind]. rewrite E2.
    destruct (Py.int_mul estimate max_size_mb) as [x| |];
      cbn [bind] in *; try reflexivity.
    destruct (Py.truediv_float x taille_mo) as [q| |];
      cbn [bind]; try reflexivity.
    rewrite PyFacts.int_floor; [reflexivity|].
    apply PyFacts.signbit_mul; [|reflexivity]. now apply Hr.
  - intros E1 E2. rewrite E1, Hb. cbn [bind]. rewrite E2. reflexivity.
Qed.

(** One file that decodes and a seed estimate of at least one: one
    document of one page, whatever its size, once the document is
    measured and the estimate corrected. *)
Lemma single_page (f : string) (img : image) (fuel : nat)
    (seed pages' : Z) (taille_mo : Py.float) :
  fichiers = [f] ->
  charger max_width f = Some img ->
  seed_pages_par_pdf max_size_mb = Returns seed -> 1 <= seed ->
  let pdf_name := pdf_name_of output_base 1 in
  taille_mo_of pdf_name [img] = Returns taille_mo ->
  ajuster 1 taille_mo = Returns pages' ->
  creer_pdf_split image charger taille_pdf fichiers output_base
    max_size_mb max_width (S fuel)
  = Returns ([(pdf_name, taille_mo, 1%nat)], [(pdf_name, [img])]).
Proof.
  intros Hf Hc Hseed H1 pdf_name Ht Haj.
  unfold creer_pdf_split, initial_pages_par_pdf. rewrite Hseed. cbn [bind].
  assert (Hp : (if seed >=? Z.of_nat (List.length fichiers)
                then Z.of_nat (List.length fichiers) else seed) = 1).
  { rewrite Hf. simpl. destruct (Z.geb_spec seed 1); [reflexivity|lia]. }
  rewrite Hp.
  pose (st0 := initial_state image 1). fold st0.
  assert (Hslice : Py.slice fichiers (idx _ st0) (idx _ st0 + pages_par_pdf _ st0) = [f]).
  { rewrite Hf. reflexivity. }
  assert (Hload : load [f] = [img]).
  { simpl. now rewrite Hc. }
  assert (Hlt : idx _ st0 < Z.of_nat (List.length fichiers)).
  { rewrite Hf. simpl. lia. }
  assert (Hit : iteration st0 =
                Returns (mkState image 1 pages' 2
                           [(pdf_name, taille_mo, 1%nat)] [(pdf_name, [img])])).
  { rewrite iteration_nonempty; rewrite Hslice, Hload; [|discriminate].
    change (pdf_name_of output_base (pdf_num _ st0)) with pdf_name.
    rewrite Ht. cbn [bind].
    change (pages_par_pdf _ st0) with 1. rewrite Haj. reflexivity. }
  rewrite (boucle_step fuel st0 _ _ Hlt Hit eq_refl).
  rewrite boucle_done; [reflexivity|].
  rewrite Hf. simpl. lia.
Qed.

End PackerFacts.

(** C1. Three page files, a ceiling of 1 MB and documents of 3 MiB:
    the seed estimate is [int(1 * 1024 / 350) = 2], the first pass takes
    two files and corrects the estimate to [int(2 * 1 / 3.0) = 0]; from
    then on [idx] stays at 2 and the loop never stops, whatever the
    number of passes allowed. *)
Theorem creer_pdf_split_estimate_zero :
  initial_pages_par_pdf Example.three_files (Py.Int 1) = Returns 2 /\
  (exists st1,
     iteration unit Example.charger_ok Example.taille_3_mo Example.three_files
       "Cadastre" (Py.Int 1) 2000 (initial_state unit 2) = Returns st1 /\
     pages_par_pdf _ st1 = 0 /\ idx _ st1 = 2) /\
  forall fuel : nat,
    creer_pdf_split unit Example.charger_ok Example.taille_3_mo Example.three_files
      "Cadastre" (Py.Int 1) 2000 fuel = OutOfFuel.
Proof.
  assert (H0 : initial_pages_par_pdf Example.three_files (Py.Int 1) = Returns 2)
    by (vm_compute; reflexivity).
  split; [exact H0|]. split.
  - eexists. split; [vm_compute; reflexivity|]. split; reflexivity.
  - intros fuel. unfold creer_pdf_split. rewrite H0. cbn [bind].
    destruct fuel as [|fuel]; [reflexivity|].
    erewrite boucle_step with (r := OutOfFuel); [reflexivity| | |].
    + reflexivity.
    + vm_compute. reflexivity.
    + apply boucle_stuck; reflexivity.
Qed.

(** C8. One page file that decodes, a ceiling of 0.3 MB and a document
    of 400 KiB (larger than the ceiling): the seed estimate is
    [int(0.3 * 1024 / 350) = 0], it is not raised to the number of files,
    and the loop never stops: no document is returned. *)
Theorem creer_pdf_split_single_file_small_ceiling :
  (exists taille_mo,
     taille_mo_of unit Example.taille_400_ko (pdf_name_of "Cadastre" 1) [tt]
       = Returns taille_mo /\
     Py.lt Example.float_0_3 taille_mo = true) /\
  initial_pages_par_pdf Example.one_file (Py.Float Example.float_0_3) = Returns 0 /\
  forall fuel : nat,
    creer_pdf_split unit Example.charger_ok Example.taille_400_ko Example.one_file
      "Cadastre" (Py.Float Example.float_0_3) 2000 fuel = OutOfFuel.
Proof.
  assert (H0 : initial_pages_par_pdf Example.one_file (Py.Float Example.float_0_3)
               = Returns 0) by (vm_compute; reflexivity).
  split.
  { eexists. split; [vm_compute; reflexivity|]. vm_compute. reflexivity. }
  split; [exact H0|].
  intros fuel. unfold creer_pdf_split. rewrite H0. cbn [bind].
  rewrite boucle_stuck; reflexivity.
Qed.

(** With the ceiling of the script, 25 MB, one page whose document
    measures 30 MiB makes one document of one page. *)
Lemma single_oversized_page :
  exists taille_mo,
    Py.lt (S754_finite false 7036874417766400 (-48)) taille_mo = true /\
    forall fuel : nat,
      creer_pdf_split unit Example.charger_ok Example.taille_30_mo Example.one_file
        "Cadastre" (Py.Int 25) 2000 (S fuel)
      = Returns ([("Cadastre_1.pdf"%string, taille_mo, 1%nat)],
                 [("Cadastre_1.pdf"%string, [tt])]).
Proof.
  eexists. split; [|intros fuel; eapply (single_page unit Example.charger_ok
    Example.taille_30_mo Example.one_file "Cadastre" (Py.Int 25) 2000
    "temp/page_0001.jpg"%string tt fuel)].
  2-3: reflexivity.
  2: vm_compute; reflexivity.
  2: lia.
  2: vm_compute; reflexivity.
  2: vm_compute; reflexivity.
  vm_compute. reflexivity.
Qed.

(** The floor of the code is that of the rounded float product: with
    an estimate of 61, the ceiling 25 and a document of 11.25 MiB the
    new estimate is 121, where [61 * 25 / 11.25 * 9 / 10] is 122. *)
Remark ajuster_rounds :
  (exists taille_mo,
     Py.int_truediv 11796480 (1024 * 1024) = Returns taille_mo /\
     ajuster (Py.Int 25) 61 taille_mo = Returns 121) /\
  61 * 25 * (1024 * 1024) * 9 = 122 * (11796480 * 10).
Proof.
  split; [|reflexivity].
  eexists. split; [vm_compute; reflexivity|].
  vm_compute. reflexivity.
Qed.

(** A run that returns: four files of which one is corrupt, a ceiling
    of 1 MB, 500000 bytes per page. *)
Lemma creer_pdf_split_coverage_witness :
  exists pdfs docs,
    creer_pdf_split string Example.charger_named Example.taille_par_page
      Example.four_files "Cadastre" (Py.Int 1) 2000 5 = Returns (pdfs, docs) /\
    list_sum (map snd pdfs) = 3%nat /\
    map snd docs = [["temp/page_0001.jpg"];
                    ["temp/page_0003.jpg"; "temp/page_0004.jpg"]]%string.
Proof.
  eexists. eexists. split; [vm_compute; reflexivity|].
  split.
  - refine (proj1 (creer_pdf_split_coverage string Example.charger_named
      Example.taille_par_page Example.four_files "Cadastre" (Py.Int 1) 2000 5 _ _ _ _)).
    + reflexivity.
    + vm_compute. reflexivity.
  - reflexivity.
Defined.

(** The first pass of that run: a document of one page and 500000
    bytes, below 0.7 MB, and the estimate grows from 2 to
    [floor(2 * 1 / taille_mo * 0.9) = 3]. *)
Lemma feedback_correction_witness :
  exists taille_mo : Py.float,
    iteration string Example.charger_named Example.taille_par_page
      Example.four_files "Cadastre" (Py.Int 1) 2000 (initial_state string 2)
    = Returns (mkState string 2 3 2
                 [("Cadastre_1.pdf"%string, taille_mo, 1%nat)]
                 [("Cadastre_1.pdf"%string, ["temp/page_0001.jpg"%string])]).
Proof.
  eexists.
  edestruct (feedback_correction string Example.charger_named Example.taille_par_page
               Example.four_files "Cadastre" (Py.Int 1) 2000
               (initial_state string 2))
    as (_ & Hlow & _).
  - reflexivity.
  - vm_compute. discriminate.
  - vm_compute. discriminate.
  - vm_compute. reflexivity.
  - vm_compute. reflexivity.
  - vm_compute. reflexivity.
  - rewrite Hlow; vm_compute; reflexivity.
Defined.

End PackerFacts.


(** ** Texts *)

Module StrFacts.

Local Open Scope string_scope.

Lemma append_nil_r (s : string) : s ++ "" = s.
Proof. induction s as [|c s IH]; simpl; [reflexivity|now rewrite IH]. Qed.

Lemma append_assoc (a b c : string) : (a ++ b) ++ c = a ++ b ++ c.
Proof. induction a as [|x a IH]; simpl; [reflexivity|now rewrite IH]. Qed.

Lemma length_append (a b : string) :
  String.length (a ++ b) = (String.length a + String.length b)%nat.
Proof. induction a as [|x a IH]; simpl; [reflexivity|now rewrite IH]. Qed.

Lemma append_inv_head (a b c : string) : a ++ b = a ++ c -> b = c.
Proof.
  induction a as [|x a IH]; simpl; [trivial|].
  intros [= H]. now apply IH.
Qed.

(** Two splits of one text at the same position are equal. *)
Lemma append_inv_length (a b c d : string) :
  a ++ b = c ++ d -> String.length a = String.length c -> a = c /\ b = d.
Proof.
  revert c. induction a as [|x a IH]; intros [|y c]; simpl; try discriminate.
  - intros H _. now split.
  - intros [= -> H] [= L]. destruct (IH c H L) as [-> ->]. now split.
Qed.

Lemma contains_append (c : ascii) (a b : string) :
  Str.contains c (a ++ b) = Str.contains c a || Str.contains c b.
Proof.
  induction a as [|x a IH]; simpl; [reflexivity|].
  now rewrite IH, orb_assoc.
Qed.

Lemma all_append (p : ascii -> bool) (a b : string) :
  Str.all p (a ++ b) = Str.all p a && Str.all p b.
Proof.
  induction a as [|x a IH]; simpl; [reflexivity|].
  now rewrite IH, andb_assoc.
Qed.

Lemma length_drop (n : nat) (s : string) :
  String.length (Str.drop n s) = (String.length s - n)%nat.
Proof.
  revert s. induction n as [|n IH]; intros [|c s]; simpl; auto.
Qed.

Lemma drop_append (n : nat) (a b : string) :
  (n <= String.length a)%nat -> Str.drop n (a ++ b) = Str.drop n a ++ b.
Proof.
  revert a. induction n as [|n IH]; intros [|c a]; simpl; intros H;
    try reflexivity; try lia.
  apply IH. lia.
Qed.

Lemma drop_length_append (a b : string) :
  Str.drop (String.length a) (a ++ b) = b.
Proof. induction a as [|c a IH]; simpl; [now destruct b|exact IH]. Qed.

Lemma digit_not_slash (c : ascii) : Re.is_digit c = true -> Ascii.eqb c "/" = false.
Proof.
  destruct (Ascii.eqb_spec c "/") as [->|]; [discriminate|reflexivity].
Qed.

Lemma digits_no_slash (s : string) :
  Str.all Re.is_digit s = true -> Str.contains "/" s = false.
Proof.
  induction s as [|c s IH]; simpl; [reflexivity|].
  intros H. apply andb_true_iff in H as [Hc Hs].
  now rewrite (digit_not_slash c Hc), IH.
Qed.

End StrFacts.

(** ** The regular expressions *)

Module ReFacts.

Import Re.

Local Open Scope string_scope.

Lemma digits_inv (n : nat) (s g r : string) :
  digits n s = Some (g, r) ->
  s = g ++ r /\ String.length g = n /\ Str.all is_digit g = true.
Proof.
  revert s g r. induction n as [|n IH]; intros s g r; simpl.
  - intros [= <- <-]. auto.
  - destruct s as [|c s]; [discriminate|].
    destruct (is_digit c) eqn:E; [|discriminate].
    destruct (digits n s) as [[d r']|] eqn:H; simpl; [|discriminate].
    intros [= <- <-].
    destruct (IH _ _ _ H) as (-> & L & A).
    simpl. rewrite E, A, L. auto.
Qed.

Lemma digits_app (g r : string) :
  Str.all is_digit g = true -> digits (String.length g) (g ++ r) = Some (g, r).
Proof.
  induction g as [|c g IH]; simpl; [reflexivity|].
  intros H. apply andb_true_iff in H as [Hc Hg].
  now rewrite Hc, (IH Hg).
Qed.

Lemma lit_inv (p s m r : string) :
  lit false p s = Some (m, r) -> m = p /\ s = p ++ r.
Proof.
  revert s m r. induction p as [|a p IH]; intros s m r; simpl.
  - intros [= <- <-]. auto.
  - destruct s as [|c s]; [discriminate|].
    destruct (Ascii.eqb_spec c a) as [->|]; [|discriminate].
    destruct (lit false p s) as [[m' r']|] eqn:H; simpl; [|discriminate].
    intros [= <- <-]. destruct (IH _ _ _ H) as (-> & ->). auto.
Qed.

Lemma lit_app (p r : string) : lit false p (p ++ r) = Some (p, r).
Proof.
  induction p as [|a p IH]; simpl; [reflexivity|].
  now rewrite Ascii.eqb_refl, IH.
Qed.

Lemma lit_ignorecase_inv (p s m r : string) :
  lit true p s = Some (m, r) ->
  s = m ++ r /\ Str.map lower m = Str.map lower p.
Proof.
  revert s m r. induction p as [|a p IH]; intros s m r; simpl.
  - intros [= <- <-]. auto.
  - destruct s as [|c s]; [discriminate|].
    destruct (Ascii.eqb_spec (lower c) (lower a)) as [E|]; [|discriminate].
    destruct (lit true p s) as [[m' r']|] eqn:H; simpl; [|discriminate].
    intros [= <- <-]. destruct (IH _ _ _ H) as (-> & L).
    simpl. now rewrite E, L.
Qed.

Lemma lit_ignorecase_app (p m r : string) :
  Str.map lower m = Str.map lower p -> lit true p (m ++ r) = Some (m, r).
Proof.
  revert m. induction p as [|a p IH]; intros [|c m]; simpl; try discriminate.
  - reflexivity.
  - intros [= E L]. now rewrite E, Ascii.eqb_refl, (IH _ L).
Qed.

Lemma at_end_inv (s : string) :
  at_end s = true -> s = "" \/ s = String newline "".
Proof.
  destruct s as [|c [|d s]]; simpl; try discriminate; auto.
  destruct (Ascii.eqb_spec c newline) as [->|]; [auto|discriminate].
Qed.

(** What a match of [(\d{4})(_\d{4}\.jpg)$] looks like. *)
Lemma dossier_tail_inv (s g4 g5 : string) :
  dossier_tail s = Some (g4, g5) ->
  exists d e,
    s = g4 ++ g5 ++ e /\ g5 = "_" ++ d ++ ".jpg" /\
    String.length g4 = 4%nat /\ Str.all is_digit g4 = true /\
    String.length d = 4%nat /\ Str.all is_digit d = true /\
    (e = "" \/ e = String newline "").
Proof.
  unfold dossier_tail.
  destruct (digits 4 s) as [[a s1]|] eqn:H1; cbn [obind]; [|discriminate].
  destruct (lit false "_" s1) as [[u s2]|] eqn:H2; cbn [obind]; [|discriminate].
  destruct (digits 4 s2) as [[d s3]|] eqn:H3; cbn [obind]; [|discriminate].
  destruct (lit false ".jpg" s3) as [[e s4]|] eqn:H4; cbn [obind]; [|discriminate].
  destruct (at_end s4) eqn:H5; [|discriminate].
  intros [= <- <-].
  apply digits_inv in H1 as (-> & L1 & A1).
  apply lit_inv in H2 as (-> & ->).
  apply digits_inv in H3 as (-> & L3 & A3).
  apply lit_inv in H4 as (-> & ->).
  apply at_end_inv in H5.
  exists d, s4. repeat split; try assumption.
  now rewrite !StrFacts.append_assoc.
Qed.

Lemma dossier_tail_app (g4 d : string) :
  String.length g4 = 4%nat -> Str.all is_digit g4 = true ->
  String.length d = 4%nat -> Str.all is_digit d = true ->
  dossier_tail (g4 ++ "_" ++ d ++ ".jpg") = Some (g4, "_" ++ d ++ ".jpg").
Proof.
  intros L4 A4 Ld Ad. unfold dossier_tail.
  rewrite <- L4 at 1. rewrite (digits_app g4 _ A4). cbn [obind].
  rewrite (lit_app "_"). cbn [obind].
  rewrite <- Ld at 1. rewrite (digits_app d _ Ad). cbn [obind].
  reflexivity.
Qed.

Lemma dossier_tail_length (s : string) :
  (String.length s < 13)%nat -> dossier_tail s = None.
Proof.
  intros H. destruct (dossier_tail s) as [[g4 g5]|] eqn:E; [|reflexivity].
  apply dossier_tail_inv in E as (d & e & -> & -> & L4 & _ & Ld & _).
  rewrite !StrFacts.length_append, L4, Ld in H. simpl in H. lia.
Qed.

Lemma dossier_tail_no_slash (s g4 g5 : string) :
  dossier_tail s = Some (g4, g5) -> Str.contains "/" s = false.
Proof.
  intros E.
  apply dossier_tail_inv in E as (d & e & -> & -> & _ & A4 & _ & Ad & He).
  rewrite !StrFacts.contains_append.
  rewrite (StrFacts.digits_no_slash _ A4), (StrFacts.digits_no_slash _ Ad).
  destruct He as [-> | ->]; reflexivity.
Qed.

(** [[^/]*] followed by [k]: the text matched holds no separator and
    [k] matches what follows. *)
Lemma not_slash_star_inv {X} (k : string -> option X) (s m : string) (x : X) :
  not_slash_star k s = Some (m, x) ->
  exists t, s = m ++ t /\ Str.contains "/" m = false /\ k t = Some x.
Proof.
  revert m. induction s as [|c s IH]; intros m; simpl.
  - destruct (k "") eqn:E; simpl; [|discriminate].
    intros [= <- <-]. exists "". auto.
  - assert (Hstop : ('(x0) <-? k (String c s) ;; Some ("", x0)) = Some (m, x) ->
                    exists t, String c s = m ++ t /\
                              Str.contains "/" m = false /\ k t = Some x).
    { destruct (k (String c s)) eqn:E; simpl; [|discriminate].
      intros [= <- <-]. exists (String c s). auto. }
    destruct (Ascii.eqb_spec c "/") as [->|Hc]; [exact Hstop|].
    destruct (not_slash_star k s) as [[m' x']|] eqn:E; [|exact Hstop].
    intros [= <- <-]. destruct (IH _ eq_refl) as (t & -> & Hm & Hk).
    exists t. simpl. rewrite Hm.
    destruct (Ascii.eqb_spec c "/"); [contradiction|auto].
Qed.

Lemma not_slash_star_short {X} (k : string -> option X) (n : nat) (s : string) :
  (forall t, (String.length t < n)%nat -> k t = None) ->
  (String.length s < n)%nat -> not_slash_star k s = None.
Proof.
  intros Hk. induction s as [|c s IH]; simpl; intros H.
  - now rewrite (Hk "" H).
  - rewrite (Hk (String c s) H). simpl.
    rewrite IH by lia. now destruct (Ascii.eqb c "/").
Qed.

(** The greedy match stops where [k] matches a text of the least
    length that [k] accepts. *)
Lemma not_slash_star_app {X} (k : string -> option X) (n : nat)
    (m t : string) (x : X) :
  (forall t, (String.length t < n)%nat -> k t = None) ->
  String.length t = n -> k t = Some x ->
  Str.contains "/" m = false ->
  not_slash_star k (m ++ t) = Some (m, x).
Proof.
  intros Hk Lt Ht. induction m as [|c m IH]; simpl.
  - intros _. destruct t as [|c t]; simpl.
    + now rewrite Ht.
    + rewrite Ht. simpl.
      rewrite (not_slash_star_short k n t Hk) by (simpl in Lt; lia).
      now destruct (Ascii.eqb c "/").
  - intros H. apply orb_false_iff in H as [Hc Hm].
    rewrite Hc, (IH Hm). reflexivity.
Qed.

Lemma not_slash_plus_app {X} (k : string -> option X) (n : nat)
    (m t : string) (x : X) :
  (forall t, (String.length t < n)%nat -> k t = None) ->
  String.length t = n -> k t = Some x ->
  m <> "" -> Str.contains "/" m = false ->
  not_slash_plus k (m ++ t) = Some (m, x).
Proof.
  intros Hk Lt Ht Hne Hm. destruct m as [|c m]; [congruence|].
  simpl in *. apply orb_false_iff in Hm as [Hc Hm].
  rewrite Hc, (not_slash_star_app k n m t x Hk Lt Ht Hm). reflexivity.
Qed.

Lemma not_slash_plus_inv {X} (k : string -> option X) (s m : string) (x : X) :
  not_slash_plus k s = Some (m, x) ->
  exists t, s = m ++ t /\ m <> "" /\ Str.contains "/" m = false /\ k t = Some x.
Proof.
  destruct s as [|c s]; simpl; [discriminate|].
  destruct (Ascii.eqb c "/") eqn:Hc; [discriminate|].
  destruct (not_slash_star k s) as [[m' x']|] eqn:E; simpl; [|discriminate].
  intros [= <- <-]. apply not_slash_star_inv in E as (t & -> & Hm & Hk).
  exists t. simpl. rewrite Hc, Hm. repeat split; auto. discriminate.
Qed.

Lemma dossier_body_inv (s g2 g3 g4 g5 : string) :
  dossier_body s = Some (g2, g3, g4, g5) ->
  exists t,
    s = g2 ++ "/" ++ g3 ++ t /\ String.length g2 = 4%nat /\
    Str.all is_digit g2 = true /\ g3 <> "" /\
    Str.contains "/" g3 = false /\ dossier_tail t = Some (g4, g5).
Proof.
  unfold dossier_body.
  destruct (digits 4 s) as [[a s1]|] eqn:H1; cbn [obind]; [|discriminate].
  destruct (lit false "/" s1) as [[u s2]|] eqn:H2; cbn [obind]; [|discriminate].
  destruct (not_slash_plus dossier_tail s2) as [[m [x y]]|] eqn:H3;
    cbn [obind]; [|discriminate].
  intros [= <- <- <- <-].
  apply digits_inv in H1 as (-> & L1 & A1).
  apply lit_inv in H2 as (-> & ->).
  apply not_slash_plus_inv in H3 as (t & -> & Hne & Hm & Ht).
  exists t. repeat split; assumption.
Qed.

(** A match of the body has its only separator at index 4. *)
Lemma dossier_body_drop (s : string) (x : string * string * string * string) :
  dossier_body s = Some x -> Str.contains "/" (Str.drop 5 s) = false.
Proof.
  destruct x as [[[g2 g3] g4] g5]. intros H.
  apply dossier_body_inv in H as (t & -> & L & _ & _ & Hm & Ht).
  change (g2 ++ "/" ++ g3 ++ t) with (g2 ++ String "/" "" ++ g3 ++ t).
  rewrite <- StrFacts.append_assoc.
  replace 5%nat with (String.length (g2 ++ String "/" ""))
    by (rewrite StrFacts.length_append, L; reflexivity).
  rewrite StrFacts.drop_length_append, StrFacts.contains_append, Hm.
  now rewrite (dossier_tail_no_slash _ _ _ Ht).
Qed.

Lemma dossier_body_app (d m d' e : string) :
  String.length d = 4%nat -> Str.all is_digit d = true ->
  m <> "" -> Str.contains "/" m = false ->
  String.length d' = 4%nat -> Str.all is_digit d' = true ->
  String.length e = 4%nat -> Str.all is_digit e = true ->
  dossier_body (d ++ "/" ++ m ++ d' ++ "_" ++ e ++ ".jpg")
  = Some (d, m, d', "_" ++ e ++ ".jpg").
Proof.
  intros Ld Ad Hne Hm Ld' Ad' Le Ae. unfold dossier_body.
  rewrite <- Ld at 1. rewrite (digits_app d _ Ad). cbn [obind].
  rewrite (lit_app "/"). cbn [obind].
  rewrite (not_slash_plus_app dossier_tail 13 m _ (d', "_" ++ e ++ ".jpg")
             dossier_tail_length); try assumption.
  - reflexivity.
  - rewrite !StrFacts.length_append, Ld', Le. reflexivity.
  - now apply dossier_tail_app.
Qed.

(** [(.*?)] followed by [k]: the prefix found is [p] when [k] matches
    after [p] and at no earlier position. *)
Lemma any_lazy_app {X} (k : string -> option X) (p r : string) (x : X) :
  Str.contains newline p = false ->
  (forall a b, p = a ++ b -> b <> "" -> k (b ++ r) = None) ->
  k r = Some x ->
  any_lazy k (p ++ r) = Some (p, x).
Proof.
  intros Hnl Hearly Hk. induction p as [|c p IH].
  - simpl. destruct r; simpl; now rewrite Hk.
  - simpl in Hnl. apply orb_false_iff in Hnl as [Hc Hp].
    cbn [append any_lazy].
    assert (H0 : k (String c (p ++ r)) = None)
      by (apply (Hearly "" (String c p) eq_refl); discriminate).
    rewrite H0, Hc, IH; [reflexivity|assumption|].
    intros a b -> Hb. apply (Hearly (String c a) b eq_refl Hb).
Qed.

Lemma any_lazy_inv {X} (k : string -> option X) (s p : string) (x : X) :
  any_lazy k s = Some (p, x) ->
  exists r, s = p ++ r /\ Str.contains newline p = false /\ k r = Some x.
Proof.
  revert p. induction s as [|c s IH]; intros p; simpl.
  - destruct (k "") eqn:E; [|discriminate].
    intros [= <- <-]. exists "". auto.
  - destruct (k (String c s)) eqn:E.
    + intros [= <- <-]. exists (String c s). auto.
    + destruct (Ascii.eqb c newline) eqn:Hc; [discriminate|].
      destruct (any_lazy k s) as [[p' x']|] eqn:H; simpl; [|discriminate].
      intros [= <- <-]. destruct (IH _ eq_refl) as (r & -> & Hp & Hk).
      exists r. simpl. rewrite Hc, Hp. auto.
Qed.

Lemma search_dossier_app (p d m d' e : string) :
  Str.contains newline p = false ->
  String.length d = 4%nat -> Str.all is_digit d = true ->
  m <> "" -> Str.contains "/" m = false ->
  String.length d' = 4%nat -> Str.all is_digit d' = true ->
  String.length e = 4%nat -> Str.all is_digit e = true ->
  search_dossier (p ++ d ++ "/" ++ m ++ d' ++ "_" ++ e ++ ".jpg")
  = Some (p, (d, m, d', "_" ++ e ++ ".jpg")).
Proof.
  intros Hp Ld Ad Hne Hm Ld' Ad' Le Ae. unfold search_dossier.
  apply any_lazy_app; [assumption| |now apply dossier_body_app].
  intros a b _ Hb.
  destruct (dossier_body _) as [x|] eqn:E; [|reflexivity].
  apply dossier_body_drop in E.
  change (b ++ d ++ "/" ++ m ++ d' ++ "_" ++ e ++ ".jpg")
    with (b ++ d ++ String "/" (m ++ d' ++ "_" ++ e ++ ".jpg")) in E.
  rewrite <- StrFacts.append_assoc in E.
  rewrite StrFacts.drop_append, StrFacts.contains_append in E.
  - simpl in E. rewrite orb_true_r in E. discriminate.
  - rewrite StrFacts.length_append, Ld. destruct b; [congruence|simpl; lia].
Qed.

(** ** The second expression *)

Lemma jpg_suffix_inv (s : string) :
  Str.map lower s = ".jpg" ->
  exists a b c d, s = String a (String b (String c (String d ""))) /\
                  lower d = "g"%char.
Proof.
  destruct s as [|a [|b [|c [|d [|x s]]]]]; simpl; try discriminate.
  intros [= _ _ _ Hd]. now exists a, b, c, d.
Qed.

Lemma simple_body_inv (s g2 g3 : string) :
  simple_body s = Some (g2, g3) ->
  exists e,
    s = g2 ++ g3 ++ e /\ String.length g2 = 4%nat /\
    Str.all is_digit g2 = true /\ Str.map lower g3 = ".jpg" /\
    (e = "" \/ e = String newline "").
Proof.
  unfold simple_body.
  destruct (digits 4 s) as [[a s1]|] eqn:H1; cbn [obind]; [|discriminate].
  destruct (lit true ".jpg" s1) as [[u s2]|] eqn:H2; cbn [obind]; [|discriminate].
  destruct (at_end s2) eqn:H3; [|discriminate].
  intros [= <- <-].
  apply digits_inv in H1 as (-> & L1 & A1).
  apply lit_ignorecase_inv in H2 as (-> & Hu).
  apply at_end_inv in H3.
  exists s2. repeat split; assumption.
Qed.

Lemma simple_body_app (d sfx : string) :
  String.length d = 4%nat -> Str.all is_digit d = true ->
  Str.map lower sfx = ".jpg" ->
  simple_body (d ++ sfx) = Some (d, sfx).
Proof.
  intros Ld Ad Hs. unfold simple_body.
  rewrite <- Ld at 1. rewrite (digits_app d _ Ad). cbn [obind].
  rewrite <- (StrFacts.append_nil_r sfx) at 1.
  rewrite (lit_ignorecase_app ".jpg" sfx "" Hs). reflexivity.
Qed.

Lemma search_simple_app (p d sfx : string) :
  Str.contains newline p = false ->
  String.length d = 4%nat -> Str.all is_digit d = true ->
  Str.map lower sfx = ".jpg" ->
  search_simple (p ++ d ++ sfx) = Some (p, (d, sfx)).
Proof.
  intros Hp Ld Ad Hs. unfold search_simple.
  apply any_lazy_app; [assumption| |now apply simple_body_app].
  intros a b _ Hb.
  destruct (simple_body _) as [[g2 g3]|] eqn:E; [|reflexivity].
  exfalso.
  apply simple_body_inv in E as (e & E & L2 & _ & H3 & He).
  destruct (jpg_suffix_inv _ Hs) as (s1 & s2 & s3 & s4 & -> & Hg).
  destruct (jpg_suffix_inv _ H3) as (t1 & t2 & t3 & t4 & -> & _).
  assert (Hlen := f_equal String.length E).
  rewrite !StrFacts.length_append, Ld, L2 in Hlen.
  destruct He as [-> | ->]; simpl in Hlen.
  - destruct b; [congruence|simpl in Hlen; lia].
  - destruct b as [|x [|y b]]; [congruence| |simpl in Hlen; lia].
    destruct d as [|d1 [|d2 [|d3 [|d4 [|d5 d]]]]]; try discriminate.
    destruct g2 as [|h1 [|h2 [|h3 [|h4 [|h5 g2]]]]]; try discriminate.
    simpl in E. injection E as _ _ _ _ _ _ _ _ E4.
    subst s4. discriminate.
Qed.

End ReFacts.

(** ** Zero-padded decimal numbers *)

Module FmtFacts.

Local Open Scope string_scope.

Lemma str_nonneg (n : Z) :
  0 <= n -> Py.str n = NilEmpty.string_of_uint (N.to_uint (Z.to_N n)).
Proof.
  intros H. destruct n as [|p|p]; try lia; [reflexivity|].
  unfold Py.str. simpl.
  pose proof (DecimalPos.Unsigned.to_uint_nonnil p) as Hp.
  unfold NilZero.string_of_uint.
  destruct (Pos.to_uint p); [congruence|reflexivity..].
Qed.

Lemma uint_of_zeros (k : nat) (s : string) :
  NilEmpty.uint_of_string (Py.zeros k ++ s) =
  option_map (Nat.iter k D0) (NilEmpty.uint_of_string s).
Proof.
  induction k as [|k IH]; simpl.
  - now destruct (NilEmpty.uint_of_string s).
  - rewrite IH. now destruct (NilEmpty.uint_of_string s).
Qed.

Lemma of_uint_zeros (k : nat) (d : uint) :
  N.of_uint (Nat.iter k D0 d) = N.of_uint d.
Proof. induction k as [|k IH]; simpl; [reflexivity|exact IH]. Qed.

(** Reading back a padded number gives the number. *)
Lemma int_of_str_padded (k : nat) (n : Z) :
  0 <= n -> Py.int_of_str (Py.zeros k ++ Py.str n) = Some n.
Proof.
  intros H. unfold Py.int_of_str.
  rewrite (str_nonneg n H), uint_of_zeros, NilEmpty.usu. simpl.
  rewrite of_uint_zeros, DecimalN.Unsigned.of_to.
  f_equal. lia.
Qed.

Lemma int_of_str_minus (s : string) : Py.int_of_str (String "-" s) = None.
Proof.
  unfold Py.int_of_str. simpl.
  now destruct (NilEmpty.uint_of_string s).
Qed.

Lemma fmt_0d_nonneg (w : nat) (n : Z) :
  0 <= n -> Py.int_of_str (Py.fmt_0d w n) = Some n.
Proof.
  intros H. unfold Py.fmt_0d.
  destruct (Z.ltb_spec n 0); [lia|]. now apply int_of_str_padded.
Qed.

Lemma fmt_0d_neg (w : nat) (n : Z) :
  n < 0 ->
  exists s, Py.fmt_0d w n = String "-" s /\ Py.int_of_str s = Some (- n).
Proof.
  intros H. unfold Py.fmt_0d.
  destruct (Z.ltb_spec n 0); [|lia].
  eexists. split; [reflexivity|]. apply int_of_str_padded. lia.
Qed.

(** The format is injective in the number, for every width. *)
Lemma fmt_0d_inj (w : nat) (n1 n2 : Z) :
  Py.fmt_0d w n1 = Py.fmt_0d w n2 -> n1 = n2.
Proof.
  intros E.
  destruct (Z.lt_ge_cases n1 0) as [H1|H1], (Z.lt_ge_cases n2 0) as [H2|H2].
  - destruct (fmt_0d_neg w n1 H1) as (s1 & E1 & V1).
    destruct (fmt_0d_neg w n2 H2) as (s2 & E2 & V2).
    rewrite E1, E2 in E. injection E as E. rewrite E in V1.
    rewrite V1 in V2. injection V2 as V2. lia.
  - destruct (fmt_0d_neg w n1 H1) as (s1 & E1 & _).
    pose proof (fmt_0d_nonneg w n2 H2) as V2.
    rewrite <- E, E1, int_of_str_minus in V2. discriminate.
  - destruct (fmt_0d_neg w n2 H2) as (s2 & E2 & _).
    pose proof (fmt_0d_nonneg w n1 H1) as V1.
    rewrite E, E2, int_of_str_minus in V1. discriminate.
  - pose proof (fmt_0d_nonneg w n1 H1) as V1.
    pose proof (fmt_0d_nonneg w n2 H2) as V2.
    rewrite E, V2 in V1. now injection V1.
Qed.

Lemma digit_cases (c : ascii) :
  Re.is_digit c = true ->
  In c ["0"; "1"; "2"; "3"; "4"; "5"; "6"; "7"; "8"; "9"]%char.
Proof.
  destruct c as [[] [] [] [] [] [] [] []]; intros H;
    try discriminate H; simpl; tauto.
Qed.

(** The four-digit texts, checked one by one: formatting the number a
    text writes gives the text back. *)
Lemma four_digits_checked :
  let ds := ["0"; "1"; "2"; "3"; "4"; "5"; "6"; "7"; "8"; "9"]%char in
  forallb (fun a => forallb (fun b => forallb (fun c => forallb (fun d =>
    let s := String a (String b (String c (String d ""))) in
    match Py.int_of_str s with
    | Some n => String.eqb (Py.fmt_0d 4 n) s
    | None => false
    end) ds) ds) ds) ds = true.
Proof. vm_compute. reflexivity. Qed.

Lemma fmt_0d_four_digits (s : string) (n : Z) :
  String.length s = 4%nat -> Str.all Re.is_digit s = true ->
  Py.int_of_str s = Some n -> Py.fmt_0d 4 n = s.
Proof.
  destruct s as [|a [|b [|c [|d [|x s]]]]]; try discriminate.
  intros _ H V. simpl in H.
  repeat (apply andb_true_iff in H as [?Hd H]).
  pose proof four_digits_checked as T. cbv zeta in T.
  rewrite forallb_forall in T. specialize (T a (digit_cases a Hd)).
  rewrite forallb_forall in T. specialize (T b (digit_cases b Hd0)).
  rewrite forallb_forall in T. specialize (T c (digit_cases c Hd1)).
  rewrite forallb_forall in T. specialize (T d (digit_cases d Hd2)).
  rewrite V in T. now apply String.eqb_eq in T.
Qed.

End FmtFacts.

(** ** The URL pattern matcher *)

Module UrlFacts.

Import Url.

Local Open Scope string_scope.

Section UrlFacts.

Context (unquote : string -> string).

(** What [analyser_url] returns on a decoded text of the form
    [p ++ d ++ "/" ++ m ++ d' ++ "_" ++ e ++ ".jpg"]. *)
Lemma analyser_url_dossier (u p d m d' e : string) :
  unquote u = p ++ d ++ "/" ++ m ++ d' ++ "_" ++ e ++ ".jpg" ->
  Spec.single_line p = true ->
  String.length d = 4%nat -> Spec.all_digits d = true ->
  m <> "" -> Spec.no_slash m = true ->
  String.length d' = 4%nat -> Spec.all_digits d' = true ->
  String.length e = 4%nat -> Spec.all_digits e = true ->
  analyser_url unquote u = Some (Dossier p m ("_" ++ e ++ ".jpg") 4).
Proof.
  unfold Spec.single_line, Spec.no_slash, Spec.all_digits.
  intros Hu Hp Ld Ad Hne Hm Ld' Ad' Le Ae.
  apply negb_true_iff in Hp, Hm.
  unfold analyser_url. rewrite Hu.
  now rewrite ReFacts.search_dossier_app.
Qed.

(** C5. For every sample whose decoded text is a single-line prefix,
    four digits, a separator, a non-empty text without separator, the
    same four digits and a suffix made of an underscore, four digits
    and [.jpg], [analyser_url] returns the folder pattern with 4
    digits; and the URLs generated from it carry the page number twice
    in the same four-digit format. *)
Theorem analyser_url_folder (u p d m e : string) :
  unquote u = p ++ d ++ "/" ++ m ++ d ++ "_" ++ e ++ ".jpg" ->
  Spec.single_line p = true ->
  String.length d = 4%nat -> Spec.all_digits d = true ->
  m <> "" -> Spec.no_slash m = true ->
  String.length e = 4%nat -> Spec.all_digits e = true ->
  analyser_url unquote u = Some (Dossier p m ("_" ++ e ++ ".jpg") 4) /\
  forall page : Z,
    generer_url (Dossier p m ("_" ++ e ++ ".jpg") 4) page =
    p ++ Py.fmt_0d 4 page ++ "/" ++ m ++ Py.fmt_0d 4 page ++ "_" ++ e ++ ".jpg".
Proof.
  intros Hu Hp Ld Ad Hne Hm Le Ae. split.
  - now apply (analyser_url_dossier u p d m d e).
  - reflexivity.
Qed.

(** C2. For every sample of that shape and [n] the number its four
    digits write, generating the URL of page [n] from the detected
    pattern gives the percent-decoded sample: the sample itself when
    decoding does not change it. *)
Theorem generer_url_analyser_url (u p d m e : string) (n : Z) :
  unquote u = p ++ d ++ "/" ++ m ++ d ++ "_" ++ e ++ ".jpg" ->
  Spec.single_line p = true ->
  String.length d = 4%nat -> Spec.all_digits d = true ->
  m <> "" -> Spec.no_slash m = true ->
  String.length e = 4%nat -> Spec.all_digits e = true ->
  Py.int_of_str d = Some n ->
  exists pattern,
    analyser_url unquote u = Some pattern /\
    generer_url pattern n = unquote u /\
    (unquote u = u -> generer_url pattern n = u).
Proof.
  intros Hu Hp Ld Ad Hne Hm Le Ae Hn.
  exists (Dossier p m ("_" ++ e ++ ".jpg") 4).
  assert (G : generer_url (Dossier p m ("_" ++ e ++ ".jpg") 4) n = unquote u).
  { simpl. rewrite (FmtFacts.fmt_0d_four_digits d n Ld Ad Hn). now rewrite Hu. }
  split; [now apply (analyser_url_dossier u p d m d e)|].
  split; [exact G|]. intros <-. exact G.
Qed.

(** The fallback: a decoded text that ends in four digits and [.jpg]
    in any letter case, when the first expression does not match. *)
Lemma analyser_url_simple (u p d sfx : string) :
  unquote u = p ++ d ++ sfx ->
  Re.search_dossier (unquote u) = None ->
  Spec.single_line p = true ->
  String.length d = 4%nat -> Spec.all_digits d = true ->
  Spec.jpg_suffix sfx = true ->
  analyser_url unquote u = Some (Simple p sfx 4).
Proof.
  unfold Spec.single_line, Spec.all_digits, Spec.jpg_suffix.
  intros Hu Hd Hp Ld Ad Hs.
  apply negb_true_iff in Hp. apply String.eqb_eq in Hs.
  unfold analyser_url. rewrite Hd, Hu.
  rewrite (ReFacts.search_simple_app p d sfx Hp Ld Ad Hs).
  now rewrite Ld.
Qed.

(** Whatever the sample, a simple pattern has 4 digits. *)
Lemma analyser_url_simple_digits (u prefix suffix : string) (digits : nat) :
  analyser_url unquote u = Some (Simple prefix suffix digits) -> digits = 4%nat.
Proof.
  unfold analyser_url.
  destruct (Re.search_dossier (unquote u)) as [[g1 [[[g2 g3] g4] g5]]|];
    [discriminate|].
  destruct (Re.search_simple (unquote u)) as [[g1 [g2 g3]]|] eqn:E; [|discriminate].
  intros [= <- <- <-].
  apply ReFacts.any_lazy_inv in E as (r & _ & _ & E).
  now apply ReFacts.simple_body_inv in E as (e & _ & L & _).
Qed.

End UrlFacts.

(** Two pages with the same URL are the same page. *)
Lemma generer_url_inj (pattern : Url.pattern) (n1 n2 : Z) :
  generer_url pattern n1 = generer_url pattern n2 -> n1 = n2.
Proof.
  intros E. destruct pattern as [p m s w | p s w]; simpl in E.
  - apply StrFacts.append_inv_head in E.
    assert (L : String.length (Py.fmt_0d 4 n1) = String.length (Py.fmt_0d 4 n2)).
    { apply (f_equal String.length) in E.
      rewrite !StrFacts.length_append in E. cbn [String.length] in E.
      rewrite !StrFacts.length_append in E. lia. }
    apply (StrFacts.append_inv_length _ _ _ _ E) in L as [L _].
    now apply FmtFacts.fmt_0d_inj in L.
  - apply StrFacts.append_inv_head in E.
    assert (L : String.length (Py.fmt_0d w n1) = String.length (Py.fmt_0d w n2)).
    { apply (f_equal String.length) in E.
      rewrite !StrFacts.length_append in E. lia. }
    apply (StrFacts.append_inv_length _ _ _ _ E) in L as [L _].
    now apply FmtFacts.fmt_0d_inj in L.
Qed.

(** C9. For a fixed pattern, two different page numbers give two
    different URLs. *)
Theorem generer_url_injective (pattern : Url.pattern) (n1 n2 : Z) :
  n1 <> n2 -> generer_url pattern n1 <> generer_url pattern n2.
Proof. intros Hne E. apply Hne. exact (generer_url_inj pattern n1 n2 E). Qed.

Lemma generer_url_injective_witness :
  generer_url (Simple "http://h/p" ".jpg" 4) 3 <>
  generer_url (Simple "http://h/p" ".jpg" 4) 7.
Proof. apply generer_url_injective. lia. Defined.

(** The sample of the script is of the folder kind. *)
Lemma analyser_url_folder_witness :
  analyser_url Example.unquote Example.sample_url =
  Some (Dossier Example.sample_prefix "FRAD031_00001_NUM_AC_003217_" "_0001.jpg" 4).
Proof.
  refine (proj1 (analyser_url_folder Example.unquote Example.sample_url
                   Example.sample_prefix "0010" "FRAD031_00001_NUM_AC_003217_" "0001"
                   _ _ _ _ _ _ _ _)); try reflexivity.
  discriminate.
Defined.

(** Page 10 of the sample is the sample. *)
Lemma generer_url_analyser_url_witness :
  exists pattern,
    analyser_url Example.unquote Example.sample_url = Some pattern /\
    generer_url pattern 10 = Example.sample_url.
Proof.
  destruct (generer_url_analyser_url Example.unquote Example.sample_url
              Example.sample_prefix "0010" "FRAD031_00001_NUM_AC_003217_" "0001" 10)
    as (pattern & H1 & _ & H3); try reflexivity.
  - discriminate.
  - exists pattern. split; [exact H1|]. apply H3. reflexivity.
Defined.

(** C5, as stated, fails: a sample with a four-digit folder and a
    file name that ends in the same digits and [.jpg] is classified
    simple; so is one whose file name starts with the digits. *)
Lemma analyser_url_folder_counterexample :
  (Spec.folder_shape "http://h/0010/page0010.jpg" 10 /\
   analyser_url Example.unquote "http://h/0010/page0010.jpg" =
     Some (Simple "http://h/0010/page" ".jpg" 4)) /\
  (Spec.folder_shape "http://h/0010/0010_0001.jpg" 10 /\
   analyser_url Example.unquote "http://h/0010/0010_0001.jpg" =
     Some (Simple "http://h/0010/0010_" ".jpg" 4)).
Proof.
  split; split; try reflexivity.
  - exists "http://h", "0010", "page", ".jpg". repeat split.
  - exists "http://h", "0010", "", "_0001.jpg". repeat split.
Qed.

(** C2, as stated, fails: a sample with a percent escape comes back
    decoded, and a sample with another extension has no pattern. *)
Lemma generer_url_analyser_url_counterexample :
  (Spec.folder_shape "http://h/a%20b/0010/page_0010_0001.jpg" 10 /\
   option_map (fun pattern => generer_url pattern 10)
     (analyser_url Example.unquote "http://h/a%20b/0010/page_0010_0001.jpg") =
     Some "http://h/a b/0010/page_0010_0001.jpg") /\
  (Spec.folder_shape "http://h/0010/page0010.png" 10 /\
   analyser_url Example.unquote "http://h/0010/page0010.png" = None).
Proof.
  split; split; try reflexivity.
  - exists "http://h/a%20b", "0010", "page_", "_0001.jpg". repeat split.
  - exists "http://h", "0010", "page", ".png". repeat split.
Qed.

End UrlFacts.

(** ** The order of [str] and [list.sort] *)

Module OrderFacts.

Local Open Scope string_scope.

Lemma compare_refl (s : string) : String.compare s s = Eq.
Proof.
  induction s as [|c s IH]; simpl; [reflexivity|].
  unfold Ascii.compare. now rewrite N.compare_refl.
Qed.

Lemma leb_refl (s : string) : String.leb s s = true.
Proof. unfold String.leb. now rewrite compare_refl. Qed.

Lemma compare_prefix (p a b : string) :
  String.compare (p ++ a) (p ++ b) = String.compare a b.
Proof.
  induction p as [|c p IH]; simpl; [reflexivity|].
  unfold Ascii.compare. now rewrite N.compare_refl.
Qed.

Lemma leb_prefix (p a b : string) :
  String.leb (p ++ a) (p ++ b) = String.leb a b.
Proof. unfold String.leb. now rewrite compare_prefix. Qed.

Lemma leb_trans (a b c : string) :
  String.leb a b = true -> String.leb b c = true -> String.leb a c = true.
Proof.
  unfold String.leb. revert b c.
  induction a as [|x a IH]; intros [|y b] [|z c]; simpl; try congruence.
  unfold Ascii.compare.
  destruct (N.compare_spec (N_of_ascii x) (N_of_ascii y)) as [E1|L1|G1];
    destruct (N.compare_spec (N_of_ascii y) (N_of_ascii z)) as [E2|L2|G2];
    try congruence.
  - rewrite E1, E2, N.compare_refl. apply IH.
  - intros _ _. rewrite E1. now rewrite (proj2 (N.compare_lt_iff _ _) L2).
  - intros _ _. rewrite <- E2. now rewrite (proj2 (N.compare_lt_iff _ _) L1).
  - intros _ _.
    now rewrite (proj2 (N.compare_lt_iff _ _) (N.lt_trans _ _ _ L1 L2)).
Qed.

Lemma leb_transitive : Transitive (fun x y : string => is_true (String.leb x y)).
Proof. intros a b c. apply leb_trans. Qed.

(** A list has one sorted arrangement. *)
Lemma sorted_unique (l1 l2 : list string) :
  StronglySorted (fun x y => is_true (String.leb x y)) l1 ->
  StronglySorted (fun x y => is_true (String.leb x y)) l2 ->
  Permutation l1 l2 -> l1 = l2.
Proof.
  intros S1. revert l2. induction S1 as [|a l1 S1 IH F1]; intros l2 S2 P.
  - apply Permutation_nil in P. now subst.
  - destruct S2 as [|b l2 S2 F2].
    + apply Permutation_sym, Permutation_nil in P. discriminate.
    + assert (a = b) as <-.
      { assert (Ha : In a (b :: l2)) by (eapply Permutation_in; [exact P|now left]).
        assert (Hb : In b (a :: l1))
          by (eapply Permutation_in; [exact (Permutation_sym P)|now left]).
        destruct Ha as [->|Ha]; [reflexivity|].
        destruct Hb as [->|Hb]; [reflexivity|].
        rewrite Forall_forall in F1, F2.
        apply String.leb_antisym; [apply F1|apply F2]; assumption. }
      f_equal. apply IH; [assumption|].
      now apply Permutation_cons_inv in P.
Qed.

(** Sorting any arrangement of a sorted list gives that list. *)
Lemma sort_permutation (l e : list string) :
  Permutation l e ->
  StronglySorted (fun x y => is_true (String.leb x y)) e ->
  Main.StringSort.sort l = e.
Proof.
  intros P S. apply sorted_unique.
  - apply Main.StringSort.StronglySorted_sort. exact leb_transitive.
  - exact S.
  - eapply Permutation_trans; [|exact P].
    apply Permutation_sym, Main.StringSort.Permuted_sort.
Qed.

(** In a sorted list, an entry strictly below another comes first. *)
Lemma sorted_before (l : list string) (a b : string) :
  StronglySorted (fun x y => is_true (String.leb x y)) l ->
  In a l -> In b l -> String.leb b a = false ->
  exists l1 l2 l3, l = (l1 ++ a :: l2 ++ b :: l3)%list.
Proof.
  intros S. induction S as [|x l S IH F]; intros Ha Hb Hlt; [destruct Ha|].
  destruct Ha as [->|Ha].
  - destruct Hb as [->|Hb]; [now rewrite leb_refl in Hlt|].
    apply in_split in Hb as (l2 & l3 & ->). now exists [], l2, l3.
  - destruct Hb as [->|Hb].
    + rewrite Forall_forall in F. specialize (F a Ha).
      unfold is_true in F. congruence.
    + destruct (IH Ha Hb Hlt) as (l1 & l2 & l3 & ->).
      now exists (x :: l1), l2, l3.
Qed.

(** The names [page_0000.jpg] to [page_9999.jpg], checked one by one:
    each is below the next. *)
Lemma page_names_checked :
  forallb (fun p => String.leb ("page_" ++ Py.fmt_0d 4 p ++ ".jpg")
                               ("page_" ++ Py.fmt_0d 4 (p + 1) ++ ".jpg"))
          (Main.range 0 9999) = true.
Proof. vm_compute. reflexivity. Qed.

Lemma in_range (a b p : Z) : In p (Main.range a b) <-> a <= p < b.
Proof.
  unfold Main.range. rewrite in_map_iff. split.
  - intros (i & <- & Hi). apply in_seq in Hi. lia.
  - intros H. exists (Z.to_nat (p - a)). split; [lia|].
    apply in_seq. lia.
Qed.

Lemma page_names_monotone (k : nat) (p : Z) :
  0 <= p -> p + Z.of_nat k <= 9999 ->
  String.leb ("page_" ++ Py.fmt_0d 4 p ++ ".jpg")
             ("page_" ++ Py.fmt_0d 4 (p + Z.of_nat k) ++ ".jpg") = true.
Proof.
  intros Hp. induction k as [|k IH]; intros Hq.
  - rewrite Z.add_0_r. apply leb_refl.
  - eapply leb_trans; [apply IH; lia|].
    pose proof page_names_checked as T. rewrite forallb_forall in T.
    replace (p + Z.of_nat (S k)) with (p + Z.of_nat k + 1) by lia.
    apply T. apply in_range. lia.
Qed.

Lemma path_join_prefix (a : string) :
  exists pre, forall b, Fetch.path_join a b = pre ++ b.
Proof.
  destruct a as [|c a].
  - exists "". reflexivity.
  - unfold Fetch.path_join. destruct (Fetch.ends_with_slash (String c a)).
    + exists (String c a). reflexivity.
    + exists (String c a ++ "/"). intros b.
      now rewrite StrFacts.append_assoc.
Qed.

(** Below page 10000 the order of the file names is the order of the
    pages. *)
Lemma page_filename_monotone (dir : string) (p q : Z) :
  0 <= p -> p <= q -> q <= 9999 ->
  String.leb (Fetch.page_filename dir p) (Fetch.page_filename dir q) = true.
Proof.
  intros Hp Hpq Hq. unfold Fetch.page_filename.
  destruct (path_join_prefix dir) as (pre & Hpre).
  rewrite !Hpre, leb_prefix.
  replace q with (p + Z.of_nat (Z.to_nat (q - p))) by lia.
  apply page_names_monotone; lia.
Qed.

Lemma page_filename_nonempty (dir : string) (p : Z) :
  exists c f, Fetch.page_filename dir p = String c f.
Proof.
  unfold Fetch.page_filename.
  destruct (path_join_prefix dir) as (pre & Hpre). rewrite Hpre.
  destruct pre as [|c pre]; simpl; eauto.
Qed.

End OrderFacts.

(** ** The page fetcher *)

Module FetchFacts.

Import Fetch.

Local Open Scope string_scope.

Section FetchFacts.

Context (requests_get : string -> get_result).
Context (write_file : string -> list Byte.byte -> option string).

Local Abbreviation telecharger_page :=
  (Fetch.telecharger_page requests_get write_file).

(** A response classified as a failure: the reason is [size=] and the
    number of bytes. *)
Lemma telecharger_page_failure (page : Z) (url output_dir : string)
    (status : Z) (content : list Byte.byte) :
  requests_get url = GetReturns status content ->
  status <> 200 \/ Z.of_nat (List.length content) <= 10000 ->
  telecharger_page (page, url, output_dir) =
  (page, None, Some ("size=" ++ Py.str (Z.of_nat (List.length content)))).
Proof.
  unfold Fetch.telecharger_page. intros -> H.
  destruct (Z.eqb_spec status 200) as [->|_]; [|reflexivity].
  destruct H as [H|H]; [congruence|].
  destruct (Z.gtb_spec (Z.of_nat (List.length content)) 10000); [lia|reflexivity].
Qed.

(** C10. A request that returns a response classified as a failure
    (status other than 200, or at most 10000 bytes) is reported with
    the reason [size=] and the number of bytes, whatever the status; a
    request that raises is reported with the text of its exception;
    and every reason reported is one of these two or the text of an
    exception raised while the page file is written. *)
Theorem telecharger_page_reason (page : Z) (url output_dir : string) :
  (forall status content,
     requests_get url = GetReturns status content ->
     status <> 200 \/ Z.of_nat (List.length content) <= 10000 ->
     telecharger_page (page, url, output_dir) =
     (page, None, Some ("size=" ++ Py.str (Z.of_nat (List.length content))))) /\
  (forall e,
     requests_get url = GetRaises e ->
     telecharger_page (page, url, output_dir) = (page, None, Some e)) /\
  (forall filepath reason,
     telecharger_page (page, url, output_dir) = (page, filepath, Some reason) ->
     (exists status content,
        requests_get url = GetReturns status content /\
        reason = "size=" ++ Py.str (Z.of_nat (List.length content))) \/
     requests_get url = GetRaises reason \/
     (exists content,
        requests_get url = GetReturns 200 content /\
        write_file (page_filename output_dir page) content = Some reason)).
Proof.
  repeat split.
  - intros status content. apply telecharger_page_failure.
  - unfold Fetch.telecharger_page. now intros e ->.
  - unfold Fetch.telecharger_page. intros filepath reason.
    destruct (requests_get url) as [e|status content].
    + intros [= _ <-]. right. now left.
    + destruct (Z.eqb_spec status 200) as [->|_]; simpl.
      * destruct (Z.of_nat (List.length content) >? 10000).
        -- destruct (write_file _ content) as [e|] eqn:W; [|discriminate].
           intros [= _ <-]. right. right. eauto.
        -- intros [= _ <-]. left. eauto.
      * intros [= _ <-]. left. eauto.
Qed.

(** A page that answers 200 with more than 10000 bytes and whose file
    is written. *)
Lemma telecharger_page_success (page : Z) (url output_dir : string)
    (content : list Byte.byte) :
  requests_get url = GetReturns 200 content ->
  10000 < Z.of_nat (List.length content) ->
  write_file (page_filename output_dir page) content = None ->
  telecharger_page (page, url, output_dir) =
  (page, Some (page_filename output_dir page), None).
Proof.
  intros Hg Hl Hw. unfold Fetch.telecharger_page. rewrite Hg. simpl.
  destruct (Z.gtb_spec (Z.of_nat (List.length content)) 10000); [|lia].
  now rewrite Hw.
Qed.

End FetchFacts.

(** Page 3 of the sample backend answers 404. *)
Lemma telecharger_page_reason_witness :
  Fetch.telecharger_page (Example.backend 10001) Example.write_ok
    (3, "http://h/p0003.jpg", "temp") = (3, None, Some "size=0").
Proof.
  refine (proj1 (telecharger_page_reason (Example.backend 10001) Example.write_ok
                   3 "http://h/p0003.jpg" "temp") 404 [] eq_refl _).
  left. discriminate.
Defined.

(** C10, as stated, fails: a response with status 200 and 10001 bytes
    whose file cannot be written is reported with the text of the
    exception raised by the write, and no request raised. *)
Lemma telecharger_page_reason_counterexample :
  Example.backend 10001 "http://h/p0001.jpg" =
    GetReturns 200 (repeat Byte.x00 (Z.to_nat 10001)) /\
  Fetch.telecharger_page (Example.backend 10001) Example.disk_full
    (1, "http://h/p0001.jpg", "temp") =
    (1, None, Some "[Errno 28] No space left on device").
Proof. split; vm_compute; reflexivity. Qed.

End FetchFacts.

(** ** The script *)

Module MainFacts.

Import Main.

Local Open Scope string_scope.

Lemma aggregate_fold (rs : list Fetch.result) (a : list string)
    (b : list (Z * option string)) :
  fold_left aggregate_one rs (a, b) =
  (a ++ flat_map success_of rs, b ++ flat_map failure_of rs)%list.
Proof.
  revert a b. induction rs as [|r rs IH]; intros a b; simpl.
  - now rewrite !app_nil_r.
  - destruct r as [[page filepath] err].
    destruct filepath as [[|c f]|]; simpl; rewrite IH; simpl;
      now rewrite <- ?app_assoc.
Qed.

Lemma aggregate_flat_map (rs : list Fetch.result) :
  aggregate rs = (flat_map success_of rs, flat_map failure_of rs).
Proof. unfold aggregate. now rewrite aggregate_fold. Qed.

Lemma length_range (a b : Z) : List.length (range a b) = Z.to_nat (b - a).
Proof. unfold range. now rewrite length_map, length_seq. Qed.

Lemma NoDup_range (a b : Z) : NoDup (range a b).
Proof.
  unfold range. apply Finite.Injective_map_NoDup; [|apply seq_NoDup].
  intros i j H. lia.
Qed.

(** Of a range that holds 3 and 7, all pages but two answer. *)
Lemma length_answers (a b : Z) :
  a <= 3 -> 7 < b ->
  Z.of_nat (List.length (filter Spec.answers (range a b))) = b - a - 2.
Proof.
  intros Ha Hb.
  pose proof (filter_length Spec.answers (range a b)) as L.
  rewrite length_range in L.
  assert (P : Permutation (filter (fun x => negb (Spec.answers x)) (range a b)) [3; 7]).
  { apply NoDup_Permutation.
    - apply NoDup_filter, NoDup_range.
    - repeat constructor; simpl; intuition lia.
    - intros p. rewrite filter_In, OrderFacts.in_range. unfold Spec.answers.
      simpl. destruct (Z.eqb_spec p 3), (Z.eqb_spec p 7); simpl; intuition lia. }
  apply Permutation_length in P. simpl in P. lia.
Qed.

(** Below page 10000, the files of an increasing run of pages are in
    the order of [list.sort]. *)
Lemma filenames_sorted (dir : string) (f : Z -> bool) (a : Z) (n s : nat) :
  0 <= a -> a + Z.of_nat (s + n) <= 10000 ->
  StronglySorted (fun x y => is_true (String.leb x y))
    (map (Fetch.page_filename dir)
         (filter f (map (fun i => a + Z.of_nat i) (seq s n)))).
Proof.
  intros Ha. revert s. induction n as [|n IH]; intros s Hb; simpl.
  - constructor.
  - assert (St : StronglySorted (fun x y => is_true (String.leb x y))
                   (map (Fetch.page_filename dir)
                      (filter f (map (fun i => a + Z.of_nat i) (seq (S s) n)))))
      by (apply IH; lia).
    destruct (f (a + Z.of_nat s)); [|exact St].
    simpl. constructor; [exact St|].
    apply Forall_forall. intros x Hx.
    apply in_map_iff in Hx as (q & <- & Hq).
    apply filter_In in Hq as [Hq _].
    apply in_map_iff in Hq as (i & <- & Hi). apply in_seq in Hi.
    apply OrderFacts.page_filename_monotone; lia.
Qed.

Section MainFacts.

Context (unquote : string -> string).
Context (requests_get : string -> Fetch.get_result).
Context (write_file : string -> list Byte.byte -> option string).
Context (as_completed : list (Z * string * string) -> list (Z * string * string)).
Context (image : Type).
Context (charger : Z -> string -> option image).
Context (taille_pdf : string -> list image -> N).
Context (cfg : config).

Local Abbreviation telecharger_page :=
  (Fetch.telecharger_page requests_get write_file).
Local Abbreviation download := (download requests_get write_file as_completed cfg).
Local Abbreviation fetch_all := (fetch_all requests_get write_file as_completed cfg).
Local Abbreviation main :=
  (main unquote requests_get write_file as_completed image charger taille_pdf cfg).

(** The results of the tasks of a run of pages, in the order of the
    pages. *)
Lemma results_in_order (pattern : Url.pattern) (pages : list Z) :
  (forall p, In p pages -> Spec.answers p = true ->
     exists content,
       requests_get (Url.generer_url pattern p) = Fetch.GetReturns 200 content /\
       10000 < Z.of_nat (List.length content) /\
       write_file (Fetch.page_filename (OUTPUT_DIR cfg) p) content = None) ->
  (forall p, In p pages -> Spec.answers p = false ->
     exists content,
       requests_get (Url.generer_url pattern p) = Fetch.GetReturns 404 content) ->
  let results :=
    map telecharger_page
      (map (fun page => (page, Url.generer_url pattern page, OUTPUT_DIR cfg)) pages) in
  flat_map success_of results =
    map (Fetch.page_filename (OUTPUT_DIR cfg)) (filter Spec.answers pages) /\
  map fst (flat_map failure_of results) =
    filter (fun p => negb (Spec.answers p)) pages.
Proof.
  induction pages as [|p pages IH]; intros Hok Hko; [now split|].
  destruct IH as [IH1 IH2].
  { intros q Hq. apply Hok. now right. }
  { intros q Hq. apply Hko. now right. }
  cbn [map flat_map filter].
  destruct (Spec.answers p) eqn:E.
  - destruct (Hok p (or_introl eq_refl) E) as (content & Hg & Hl & Hw).
    rewrite (FetchFacts.telecharger_page_success _ _ _ _ _ _ Hg Hl Hw).
    destruct (OrderFacts.page_filename_nonempty (OUTPUT_DIR cfg) p) as (c & f & Hf).
    rewrite Hf. cbn [success_of failure_of negb app map]. rewrite <- Hf.
    split; [exact (f_equal (cons _) IH1)|exact IH2].
  - destruct (Hko p (or_introl eq_refl) E) as (content & Hg).
    rewrite (FetchFacts.telecharger_page_failure requests_get write_file
               p _ (OUTPUT_DIR cfg) 404 content Hg)
      by (left; discriminate).
    cbn [success_of failure_of negb]. split; [exact IH1|exact (f_equal (cons _) IH2)].
Qed.

(** Whatever the order in which the workers finish, the files handed
    to the packer are the sorted files of the pages that answer, and
    the pages recorded as failures are the others. *)
Lemma fetch_all_files (pattern : Url.pattern) :
  (forall l, Permutation (as_completed l) l) ->
  (forall p, PAGE_DEBUT cfg <= p < PAGE_DEBUT cfg + NB_PAGES cfg ->
     Spec.answers p = true ->
     exists content,
       requests_get (Url.generer_url pattern p) = Fetch.GetReturns 200 content /\
       10000 < Z.of_nat (List.length content) /\
       write_file (Fetch.page_filename (OUTPUT_DIR cfg) p) content = None) ->
  (forall p, Spec.answers p = false ->
     exists content,
       requests_get (Url.generer_url pattern p) = Fetch.GetReturns 404 content) ->
  let pages := range (PAGE_DEBUT cfg) (PAGE_DEBUT cfg + NB_PAGES cfg) in
  fst (fetch_all pattern) =
    StringSort.sort
      (map (Fetch.page_filename (OUTPUT_DIR cfg)) (filter Spec.answers pages)) /\
  Permutation (map fst (snd (fetch_all pattern)))
              (filter (fun p => negb (Spec.answers p)) pages).
Proof.
  intros Hperm Hok Hko pages.
  destruct (results_in_order pattern pages) as [R1 R2].
  { intros p Hp. apply Hok. now apply OrderFacts.in_range. }
  { intros p _. apply Hko. }
  assert (P : Permutation
                (map telecharger_page (as_completed (taches cfg pattern)))
                (map telecharger_page (taches cfg pattern)))
    by apply Permutation_map, Hperm.
  unfold Main.fetch_all, Main.download. rewrite aggregate_flat_map.
  cbn [fst snd]. split.
  - apply OrderFacts.sort_permutation.
    + eapply Permutation_trans; [|apply StringSort.Permuted_sort].
      rewrite <- R1. apply Permutation_flat_map. exact P.
    + apply StringSort.StronglySorted_sort. exact OrderFacts.leb_transitive.
  - rewrite <- R2. apply Permutation_map, Permutation_flat_map. exact P.
Qed.

(** C4. Pages [PAGE_DEBUT] to [PAGE_DEBUT + NB_PAGES - 1], a range
    within 0..9999 that holds pages 3 and 7; pages 3 and 7 answer 404,
    every other page answers 200 with more than 10000 bytes and its
    file is written; the workers finish in any order. Then the sorted
    list of files is the list of the files of the other pages in
    increasing page order, it has [NB_PAGES - 2] entries, and the
    pages recorded as failures are exactly 3 and 7. *)
Theorem fetch_all_two_failures (pattern : Url.pattern) :
  0 <= PAGE_DEBUT cfg <= 3 ->
  7 < PAGE_DEBUT cfg + NB_PAGES cfg <= 10000 ->
  (forall l, Permutation (as_completed l) l) ->
  (forall p, PAGE_DEBUT cfg <= p < PAGE_DEBUT cfg + NB_PAGES cfg ->
     Spec.answers p = true ->
     exists content,
       requests_get (Url.generer_url pattern p) = Fetch.GetReturns 200 content /\
       10000 < Z.of_nat (List.length content) /\
       write_file (Fetch.page_filename (OUTPUT_DIR cfg) p) content = None) ->
  (forall p, Spec.answers p = false ->
     exists content,
       requests_get (Url.generer_url pattern p) = Fetch.GetReturns 404 content) ->
  let pages := range (PAGE_DEBUT cfg) (PAGE_DEBUT cfg + NB_PAGES cfg) in
  fst (fetch_all pattern) =
    map (Fetch.page_filename (OUTPUT_DIR cfg)) (filter Spec.answers pages) /\
  Z.of_nat (List.length (fst (fetch_all pattern))) = NB_PAGES cfg - 2 /\
  (forall p, In p (map fst (snd (fetch_all pattern))) <-> p = 3 \/ p = 7).
Proof.
  intros Hd Hn Hperm Hok Hko pages.
  destruct (fetch_all_files pattern Hperm Hok Hko) as [F Q].
  fold pages in F, Q.
  assert (S : StringSort.sort
                (map (Fetch.page_filename (OUTPUT_DIR cfg)) (filter Spec.answers pages))
              = map (Fetch.page_filename (OUTPUT_DIR cfg)) (filter Spec.answers pages)).
  { apply OrderFacts.sort_permutation; [apply Permutation_refl|].
    unfold pages, range. apply filenames_sorted; lia. }
  rewrite S in F.
  split; [exact F|]. split.
  - rewrite F, length_map. unfold pages.
    rewrite length_answers; lia.
  - intros p. split.
    + intros H. apply (Permutation_in _ Q) in H.
      apply filter_In in H as [_ H]. unfold Spec.answers in H.
      rewrite negb_involutive in H. apply orb_true_iff in H. lia.
    + intros H. apply (Permutation_in _ (Permutation_sym Q)).
      apply filter_In. split.
      * apply OrderFacts.in_range. lia.
      * unfold Spec.answers. rewrite negb_involutive. apply orb_true_iff. lia.
Qed.

(** Without a pattern, [main] returns at once: nothing is requested. *)
Lemma main_no_pattern (fuel : nat) :
  Url.analyser_url unquote (EXEMPLE_URL cfg) = None ->
  main fuel = Returns (mkReport [] [] [] []).
Proof. intros H. unfold Main.main. now rewrite H. Qed.

(** C6. When the first expression does not match the decoded sample:
    a sample that ends in four digits and [.jpg] in any letter case
    (after a single-line prefix) gives the simple pattern with that
    prefix, that suffix and 4 digits; and when the second expression
    does not match either, [analyser_url] returns [None] and [main]
    returns without a request. *)
Theorem analyser_url_fallback (fuel : nat) :
  Re.search_dossier (unquote (EXEMPLE_URL cfg)) = None ->
  (forall p d sfx,
     unquote (EXEMPLE_URL cfg) = p ++ d ++ sfx ->
     Spec.single_line p = true ->
     String.length d = 4%nat -> Spec.all_digits d = true ->
     Spec.jpg_suffix sfx = true ->
     Url.analyser_url unquote (EXEMPLE_URL cfg) = Some (Url.Simple p sfx 4)) /\
  (Re.search_simple (unquote (EXEMPLE_URL cfg)) = None ->
     Url.analyser_url unquote (EXEMPLE_URL cfg) = None /\
     main fuel = Returns (mkReport [] [] [] []) /\
     forall r, main fuel = Returns r -> requested r = []).
Proof.
  intros Hd. split.
  - intros p d sfx Hu Hp Ld Ad Hs.
    now apply (UrlFacts.analyser_url_simple unquote _ p d sfx).
  - intros Hs.
    assert (A : Url.analyser_url unquote (EXEMPLE_URL cfg) = None).
    { unfold Url.analyser_url. now rewrite Hd, Hs. }
    split; [exact A|].
    rewrite (main_no_pattern fuel A). split; [reflexivity|].
    now intros r [= <-].
Qed.

End MainFacts.

(** The sample backend on the pages that answer. *)
Lemma backend_answers (size p : Z) :
  Spec.answers p = true ->
  Example.backend size (Url.generer_url Example.pattern p) =
  Fetch.GetReturns 200 (repeat Byte.x00 (Z.to_nat size)).
Proof.
  unfold Spec.answers. rewrite negb_true_iff. intros H.
  apply orb_false_iff in H as [H3 H7].
  apply Z.eqb_neq in H3, H7. unfold Example.backend.
  change "http://h/p0003.jpg" with (Url.generer_url Example.pattern 3).
  change "http://h/p0007.jpg" with (Url.generer_url Example.pattern 7).
  rewrite (proj2 (String.eqb_neq _ _)
             (fun E => H3 (UrlFacts.generer_url_inj _ _ _ E))).
  rewrite (proj2 (String.eqb_neq _ _)
             (fun E => H7 (UrlFacts.generer_url_inj _ _ _ E))).
  reflexivity.
Qed.

Lemma backend_404 (size p : Z) :
  Spec.answers p = false ->
  exists content,
    Example.backend size (Url.generer_url Example.pattern p) =
    Fetch.GetReturns 404 content.
Proof.
  unfold Spec.answers. rewrite negb_false_iff. intros H.
  apply orb_true_iff in H as [H|H]; apply Z.eqb_eq in H; subst p;
    eexists; reflexivity.
Qed.

(** Pages 1 to 10000: the file of page 10000 comes before the file of
    page 1001 in the sorted list. *)
Lemma fetch_all_ten_thousand_pages :
  exists l1 l2 l3,
    fst (Main.fetch_all (Example.backend 10001) Example.write_ok
           Example.last_first (Example.config "http://h/p0001.jpg" 10000)
           Example.pattern) =
    (l1 ++ "temp/page_10000.jpg" :: l2 ++ "temp/page_1001.jpg" :: l3)%list.
Proof.
  destruct (fetch_all_files (Example.backend 10001) Example.write_ok
              Example.last_first (Example.config "http://h/p0001.jpg" 10000)
              Example.pattern) as [F _].
  - intros l. apply Permutation_sym, Permutation_rev.
  - intros p _ Ha. eexists. split; [now apply backend_answers|].
    split; [vm_compute; reflexivity|reflexivity].
  - apply backend_404.
  - rewrite F. apply OrderFacts.sorted_before.
    + apply StringSort.StronglySorted_sort. exact OrderFacts.leb_transitive.
    + apply (Permutation_in _ (StringSort.Permuted_sort _)).
      change "temp/page_10000.jpg" with (Fetch.page_filename "temp" 10000).
      apply in_map, filter_In. split; [|reflexivity].
      apply OrderFacts.in_range. simpl. lia.
    + apply (Permutation_in _ (StringSort.Permuted_sort _)).
      change "temp/page_1001.jpg" with (Fetch.page_filename "temp" 1001).
      apply in_map, filter_In. split; [|reflexivity].
      apply OrderFacts.in_range. simpl. lia.
    + reflexivity.
Qed.

(** Pages 1 to 10, workers that finish last first. *)
Lemma fetch_all_two_failures_witness :
  fst (Main.fetch_all (Example.backend 10001) Example.write_ok Example.last_first
         (Example.config "http://h/p0001.jpg" 10) Example.pattern) =
  ["temp/page_0001.jpg"; "temp/page_0002.jpg"; "temp/page_0004.jpg";
   "temp/page_0005.jpg"; "temp/page_0006.jpg"; "temp/page_0008.jpg";
   "temp/page_0009.jpg"; "temp/page_0010.jpg"].
Proof.
  destruct (fetch_all_two_failures (Example.backend 10001) Example.write_ok
              Example.last_first (Example.config "http://h/p0001.jpg" 10)
              Example.pattern) as [H _].
  - simpl. lia.
  - simpl. lia.
  - intros l. apply Permutation_sym, Permutation_rev.
  - intros p Hp Ha. simpl in Hp.
    assert (C : p = 1 \/ p = 2 \/ p = 3 \/ p = 4 \/ p = 5 \/ p = 6 \/ p = 7 \/
                p = 8 \/ p = 9 \/ p = 10) by lia.
    destruct C as [->|[->|[->|[->|[->|[->|[->|[->|[->| ->]]]]]]]]];
      try discriminate Ha;
      (eexists; split; [reflexivity|split; [vm_compute; reflexivity|reflexivity]]).
  - intros p Ha. unfold Spec.answers in Ha. rewrite negb_false_iff in Ha.
    apply orb_true_iff in Ha as [Ha|Ha]; apply Z.eqb_eq in Ha; subst p;
      eexists; reflexivity.
  - rewrite H. reflexivity.
Defined.

(** C4, as stated, fails. With payloads of exactly 10000 bytes no page
    is fetched; with 5 tasks only page 3 fails and [N - 1] pages are
    fetched; with 10000 tasks the file of page 10000 is sorted before
    the file of page 1001. *)
Lemma fetch_all_two_failures_counterexample :
  (Forall (fun p => Example.backend 10000 (Url.generer_url Example.pattern p) =
                    Fetch.GetReturns 200 (repeat Byte.x00 (Z.to_nat 10000)))
          [1; 2; 4; 5; 6; 8; 9; 10] /\
   fst (Main.fetch_all (Example.backend 10000) Example.write_ok Example.last_first
          (Example.config "http://h/p0001.jpg" 10) Example.pattern) = []) /\
  (let r := Main.fetch_all (Example.backend 10001) Example.write_ok
              Example.last_first (Example.config "http://h/p0001.jpg" 5)
              Example.pattern in
   List.length (fst r) = 4%nat /\ map fst (snd r) = [3]) /\
  (exists l1 l2 l3,
     fst (Main.fetch_all (Example.backend 10001) Example.write_ok
            Example.last_first (Example.config "http://h/p0001.jpg" 10000)
            Example.pattern) =
     (l1 ++ "temp/page_10000.jpg" :: l2 ++ "temp/page_1001.jpg" :: l3)%list).
Proof.
  split; [|split].
  - split; [repeat constructor|vm_compute; reflexivity].
  - vm_compute. split; reflexivity.
  - exact fetch_all_ten_thousand_pages.
Qed.

(** A sample that ends in four digits and [.jpg], and a sample that
    no expression matches. *)
Lemma analyser_url_fallback_witness :
  Url.analyser_url Example.unquote "http://h/page0007.jpg" =
    Some (Url.Simple "http://h/page" ".jpg" 4) /\
  Main.main Example.unquote (Example.backend 10001) Example.write_ok
    Example.last_first unit Example.charger_ok Example.taille_3_mo
    (Example.config "http://h/page7.jpg" 10) 0 = Returns (mkReport [] [] [] []).
Proof.
  split.
  - apply (proj1 (analyser_url_fallback Example.unquote (Example.backend 10001)
                    Example.write_ok Example.last_first unit Example.charger_ok
                    Example.taille_3_mo (Example.config "http://h/page0007.jpg" 10)
                    0%nat eq_refl) "http://h/page" "0007" ".jpg"); reflexivity.
  - apply (proj2 (analyser_url_fallback Example.unquote (Example.backend 10001)
                    Example.write_ok Example.last_first unit Example.charger_ok
                    Example.taille_3_mo (Example.config "http://h/page7.jpg" 10)
                    0%nat eq_refl) eq_refl).
Defined.

(** C6, as stated, fails: a sample with one digit has no pattern; a
    sample with five digits gets 4 digits, the first digit staying in
    the prefix; a sample with another extension has no pattern. *)
Lemma analyser_url_fallback_counterexample :
  (Spec.simple_shape "http://h/page7.jpg" 1 /\
   Url.analyser_url Example.unquote "http://h/page7.jpg" = None) /\
  (Spec.simple_shape "http://h/page00007.jpg" 5 /\
   Url.analyser_url Example.unquote "http://h/page00007.jpg" =
     Some (Url.Simple "http://h/page0" ".jpg" 4)) /\
  (Spec.simple_shape "http://h/page0007.png" 4 /\
   Url.analyser_url Example.unquote "http://h/page0007.png" = None).
Proof.
  split; [|split]; (split; [|reflexivity]).
  - exists "http://h/page", "7", ".jpg". repeat split. lia.
  - exists "http://h/page", "00007", ".jpg". repeat split. lia.
  - exists "http://h/page", "0007", ".png". repeat split. lia.
Qed.

End MainFacts.

(** ** The URL pattern matcher: what a returned pattern tells *)

Module DetectFacts.

Import Url.

Local Open Scope string_scope.

(** The numbers that [{:04d}] writes with four digits. *)
Lemma four_digit_pages_checked :
  forallb (fun k =>
    forallb (fun n => (String.length (Py.fmt_0d 4 n) =? 4)%nat &&
                      Spec.all_digits (Py.fmt_0d 4 n))
            (Main.range (100 * k) (100 * k + 100)))
    (Main.range 0 100) = true.
Proof. vm_compute. reflexivity. Qed.

Lemma fmt_0d_page (page : Z) :
  0 <= page <= 9999 ->
  String.length (Py.fmt_0d 4 page) = 4%nat /\
  Spec.all_digits (Py.fmt_0d 4 page) = true.
Proof.
  intros Hn. pose proof four_digit_pages_checked as T.
  pose proof (Z.div_mod page 100 ltac:(lia)) as Hdiv.
  pose proof (Z.mod_pos_bound page 100 ltac:(lia)) as Hmod.
  rewrite forallb_forall in T.
  specialize (T (page / 100) (proj2 (OrderFacts.in_range 0 100 (page / 100)) ltac:(lia))).
  rewrite forallb_forall in T.
  specialize (T page (proj2 (OrderFacts.in_range (100 * (page / 100))
                              (100 * (page / 100) + 100) page) ltac:(lia))).
  apply andb_true_iff in T as [L D]. split; [|exact D].
  now apply Nat.eqb_eq in L.
Qed.

Section DetectFacts.

Context (unquote : string -> string).

(** X1. A folder pattern that [analyser_url] returns has 4 digits, and
    the decoded sample is made of its prefix (without line break), four
    digits, a separator, its middle text (non-empty, without
    separator), four digits again, and its suffix, which is an
    underscore, four digits and [.jpg]; a final line break may
    follow. *)
Theorem analyser_url_dossier_shape (u p m s : string) (k : nat) :
  analyser_url unquote u = Some (Dossier p m s k) ->
  k = 4%nat /\
  exists d d' e tail,
    unquote u = p ++ d ++ "/" ++ m ++ d' ++ s ++ tail /\
    s = "_" ++ e ++ ".jpg" /\
    Spec.single_line p = true /\
    String.length d = 4%nat /\ Spec.all_digits d = true /\
    m <> "" /\ Spec.no_slash m = true /\
    String.length d' = 4%nat /\ Spec.all_digits d' = true /\
    String.length e = 4%nat /\ Spec.all_digits e = true /\
    (tail = "" \/ tail = String Re.newline "").
Proof.
  unfold analyser_url.
  destruct (Re.search_dossier (unquote u)) as [[g1 [[[g2 g3] g4] g5]]|] eqn:E.
  - intros [= <- <- <- <-]. split; [reflexivity|].
    apply ReFacts.any_lazy_inv in E as (r & Hu & Hp & E).
    apply ReFacts.dossier_body_inv in E as (t & Hr & L2 & D2 & Hne & Hm & E).
    apply ReFacts.dossier_tail_inv in E as (d & e & Ht & H5 & L4 & D4 & Ld & Dd & He).
    exists g2, g4, d, e. unfold Spec.single_line, Spec.no_slash, Spec.all_digits.
    rewrite Hp, Hm, Hu, Hr, Ht. repeat split; try assumption.
  - destruct (Re.search_simple (unquote u)) as [[g1 [g2 g3]]|]; discriminate.
Qed.

(** X2. A simple pattern is returned only when the first expression
    does not match; it has 4 digits, and the decoded sample is made of
    its prefix (without line break), four digits and its suffix, which
    is [.jpg] in some letter case; a final line break may follow. *)
Theorem analyser_url_simple_shape (u p s : string) (k : nat) :
  analyser_url unquote u = Some (Simple p s k) ->
  k = 4%nat /\
  Re.search_dossier (unquote u) = None /\
  exists d tail,
    unquote u = p ++ d ++ s ++ tail /\
    Spec.jpg_suffix s = true /\
    Spec.single_line p = true /\
    String.length d = 4%nat /\ Spec.all_digits d = true /\
    (tail = "" \/ tail = String Re.newline "").
Proof.
  unfold analyser_url.
  destruct (Re.search_dossier (unquote u)) as [[g1 [[[g2 g3] g4] g5]]|];
    [discriminate|].
  destruct (Re.search_simple (unquote u)) as [[g1 [g2 g3]]|] eqn:E; [|discriminate].
  intros [= <- <- <-].
  apply ReFacts.any_lazy_inv in E as (r & Hu & Hp & E).
  apply ReFacts.simple_body_inv in E as (e & Hr & L & D & Hs & He).
  split; [exact L|]. split; [reflexivity|].
  exists g2, e. unfold Spec.single_line, Spec.jpg_suffix, Spec.all_digits.
  rewrite Hp, Hu, Hr, Hs. repeat split; try assumption.
Qed.

(** X3. The first expression does not compare the two numbers of the
    sample: a sample whose folder number and file number differ is
    accepted as a folder pattern, and no page number generates the
    sample back from it. *)
Theorem analyser_url_two_numbers (u p d m d' e : string) :
  unquote u = p ++ d ++ "/" ++ m ++ d' ++ "_" ++ e ++ ".jpg" ->
  Spec.single_line p = true ->
  String.length d = 4%nat -> Spec.all_digits d = true ->
  m <> "" -> Spec.no_slash m = true ->
  String.length d' = 4%nat -> Spec.all_digits d' = true ->
  String.length e = 4%nat -> Spec.all_digits e = true ->
  d <> d' ->
  exists pattern,
    analyser_url unquote u = Some pattern /\
    forall page : Z, generer_url pattern page <> unquote u.
Proof.
  intros Hu Hp Ld Ad Hne Hm Ld' Ad' Le Ae Hdiff.
  exists (Dossier p m ("_" ++ e ++ ".jpg") 4).
  split; [now apply (UrlFacts.analyser_url_dossier unquote u p d m d' e)|].
  intros page E. rewrite Hu in E. cbn [generer_url] in E.
  apply StrFacts.append_inv_head in E.
  set (f := Py.fmt_0d 4 page) in *.
  assert (L : String.length f = 4%nat).
  { apply (f_equal String.length) in E.
    rewrite !StrFacts.length_append in E. lia. }
  apply StrFacts.append_inv_length in E as [E1 E2]; [|congruence].
  do 2 apply StrFacts.append_inv_head in E2.
  apply StrFacts.append_inv_length in E2 as [E3 _]; congruence.
Qed.

(** X4. Detection after generation: the URL generated for a page
    between 0 and 9999 from a folder pattern (prefix without line
    break, middle text non-empty and without separator, suffix made of
    an underscore, four digits and [.jpg]) is detected as that
    pattern, when percent-decoding leaves it unchanged. *)
Theorem analyser_url_generer_url (p m e : string) (page : Z) :
  let pattern := Dossier p m ("_" ++ e ++ ".jpg") 4 in
  Spec.single_line p = true ->
  m <> "" -> Spec.no_slash m = true ->
  String.length e = 4%nat -> Spec.all_digits e = true ->
  0 <= page <= 9999 ->
  unquote (generer_url pattern page) = generer_url pattern page ->
  analyser_url unquote (generer_url pattern page) = Some pattern.
Proof.
  intros pattern Hp Hne Hm Le Ae Hpage Hu.
  destruct (fmt_0d_page page Hpage) as [L D].
  apply (UrlFacts.analyser_url_dossier unquote _ p (Py.fmt_0d 4 page) m
           (Py.fmt_0d 4 page) e); assumption.
Qed.

End DetectFacts.

Lemma analyser_url_dossier_shape_witness :
  exists d d' e tail,
    Example.unquote Example.sample_url =
      Example.sample_prefix ++ d ++ "/" ++ "FRAD031_00001_NUM_AC_003217_" ++ d' ++
      "_0001.jpg" ++ tail /\
    "_0001.jpg" = "_" ++ e ++ ".jpg".
Proof.
  destruct (analyser_url_dossier_shape Example.unquote Example.sample_url
              Example.sample_prefix "FRAD031_00001_NUM_AC_003217_" "_0001.jpg" 4)
    as (_ & d & d' & e & tail & H1 & H2 & _).
  - reflexivity.
  - exists d, d', e, tail. split; assumption.
Defined.

Lemma analyser_url_simple_shape_witness :
  exists d tail, Example.unquote "http://h/page0007.JPG" = "http://h/page" ++ d ++ ".JPG" ++ tail.
Proof.
  destruct (analyser_url_simple_shape Example.unquote "http://h/page0007.JPG"
              "http://h/page" ".JPG" 4)
    as (_ & _ & d & tail & H1 & _).
  - reflexivity.
  - exists d, tail. exact H1.
Defined.

Lemma analyser_url_two_numbers_witness :
  exists pattern,
    analyser_url Example.unquote "http://h/0010/page_0099_0001.jpg" = Some pattern /\
    generer_url pattern 10 <> "http://h/0010/page_0099_0001.jpg" /\
    generer_url pattern 99 <> "http://h/0010/page_0099_0001.jpg".
Proof.
  destruct (analyser_url_two_numbers Example.unquote "http://h/0010/page_0099_0001.jpg"
              "http://h/" "0010" "page_" "0099" "0001")
    as (pattern & H1 & H2); try reflexivity; try discriminate.
  exists pattern. split; [exact H1|]. split; apply H2.
Defined.

Lemma analyser_url_generer_url_witness :
  analyser_url Example.unquote
    (generer_url (Dossier Example.sample_prefix "FRAD031_00001_NUM_AC_003217_"
                    "_0001.jpg" 4) 249)
  = Some (Dossier Example.sample_prefix "FRAD031_00001_NUM_AC_003217_" "_0001.jpg" 4).
Proof.
  apply (analyser_url_generer_url Example.unquote Example.sample_prefix
           "FRAD031_00001_NUM_AC_003217_" "0001" 249); try reflexivity.
  - discriminate.
  - lia.
Defined.

End DetectFacts.

(** ** The page fetcher: the two kinds of result *)

Module ResultFacts.

Import Fetch.

Local Open Scope string_scope.

Lemma page_filename_inj (output_dir : string) (p q : Z) :
  page_filename output_dir p = page_filename output_dir q -> p = q.
Proof.
  unfold page_filename.
  destruct (OrderFacts.path_join_prefix output_dir) as (pre & Hpre).
  rewrite !Hpre. intros E.
  do 2 apply StrFacts.append_inv_head in E.
  assert (L : String.length (Py.fmt_0d 4 p) = String.length (Py.fmt_0d 4 q)).
  { apply (f_equal String.length) in E.
    rewrite !StrFacts.length_append in E. lia. }
  apply (StrFacts.append_inv_length _ _ _ _ E) in L as [L _].
  now apply FmtFacts.fmt_0d_inj in L.
Qed.

(** X5. For a fixed output directory, two different pages have two
    different file names, whatever the page numbers: no page file of a
    run is written over another. *)
Theorem page_filename_injective (output_dir : string) (p q : Z) :
  p <> q -> page_filename output_dir p <> page_filename output_dir q.
Proof. intros Hne E. apply Hne. exact (page_filename_inj output_dir p q E). Qed.

Lemma page_filename_injective_witness :
  page_filename "temp" 1 <> page_filename "temp" 10001.
Proof. apply page_filename_injective. lia. Defined.

Section ResultFacts.

Context (requests_get : string -> get_result).
Context (write_file : string -> list Byte.byte -> option string).

Local Abbreviation telecharger_page :=
  (Fetch.telecharger_page requests_get write_file).

(** X6. [telecharger_page] returns the page it was given with either a
    file path and no reason, or no file path and a reason. The file
    path is returned exactly when the request returned status 200 with
    more than 10000 bytes and the file was written; it is then the
    path of [page_NNNN.jpg] in the output directory. *)
Theorem telecharger_page_outcome (page : Z) (url output_dir : string) :
  let r := telecharger_page (page, url, output_dir) in
  let accepted :=
    exists content,
      requests_get url = GetReturns 200 content /\
      10000 < Z.of_nat (List.length content) /\
      write_file (page_filename output_dir page) content = None in
  (accepted -> r = (page, Some (page_filename output_dir page), None)) /\
  (~ accepted -> exists reason, r = (page, None, Some reason)) /\
  (forall f, snd (fst r) = Some f ->
     accepted /\ f = page_filename output_dir page /\ snd r = None).
Proof.
  intros r accepted. subst r. unfold Fetch.telecharger_page.
  destruct (requests_get url) as [e|status content] eqn:G.
  { split; [|split].
    - intros (content & C & _). discriminate.
    - intros _. now exists e.
    - discriminate. }
  destruct (Z.eqb_spec status 200) as [->|Hs]; cbn [andb].
  - destruct (Z.gtb_spec (Z.of_nat (List.length content)) 10000) as [Hl|Hl].
    + destruct (write_file (page_filename output_dir page) content) as [e|] eqn:W.
      * split; [|split].
        -- intros (c & [= <-] & _ & W'). congruence.
        -- intros _. now exists e.
        -- discriminate.
      * assert (A : accepted) by (exists content; repeat split; [lia|exact W]).
        split; [|split].
        -- reflexivity.
        -- intros NA. contradiction.
        -- intros f [= <-]. repeat split. exact A.
    + split; [|split].
      * intros (c & [= <-] & Hc & _). lia.
      * intros _. eexists. reflexivity.
      * discriminate.
  - split; [|split].
    + intros (c & [= E _] & _ & _). congruence.
    + intros _. eexists. reflexivity.
    + discriminate.
Qed.

End ResultFacts.

End ResultFacts.

(** ** The script: every page is accounted for *)

Module ScriptFacts.

Import Main.

Local Open Scope string_scope.

Lemma NoDup_map_inj {A B} (f : A -> B) (l : list A) :
  (forall a b, f a = f b -> a = b) -> NoDup l -> NoDup (map f l).
Proof.
  intros Hf Hl. induction Hl as [|a l Ha Hl IH]; simpl; constructor.
  - intros Hin. apply in_map_iff in Hin as (b & E & Hin).
    apply Hf in E. now subst b.
  - exact IH.
Qed.

Lemma filter_none {A} (f : A -> bool) (l : list A) :
  (forall x, In x l -> f x = false) -> filter f l = [].
Proof.
  induction l as [|a l IH]; intros H; simpl; [reflexivity|].
  rewrite (H a (or_introl eq_refl)). apply IH. intros x Hx. apply H. now right.
Qed.

Lemma filter_every {A} (f : A -> bool) (l : list A) :
  (forall x, In x l -> f x = true) -> filter f l = l.
Proof.
  induction l as [|a l IH]; intros H; simpl; [reflexivity|].
  rewrite (H a (or_introl eq_refl)). f_equal. apply IH.
  intros x Hx. apply H. now right.
Qed.

Section ScriptFacts.

Context (unquote : string -> string).
Context (requests_get : string -> Fetch.get_result).
Context (write_file : string -> list Byte.byte -> option string).
Context (as_completed : list (Z * string * string) -> list (Z * string * string)).
Context (image : Type).
Context (charger : Z -> string -> option image).
Context (taille_pdf : string -> list image -> N).
Context (cfg : config).

Local Abbreviation telecharger_page :=
  (Fetch.telecharger_page requests_get write_file).
Local Abbreviation taches := (taches cfg).
Local Abbreviation download := (download requests_get write_file as_completed cfg).
Local Abbreviation fetch_all := (fetch_all requests_get write_file as_completed cfg).
Local Abbreviation main :=
  (main unquote requests_get write_file as_completed image charger taille_pdf cfg).
Local Abbreviation pages := (range (PAGE_DEBUT cfg) (PAGE_DEBUT cfg + NB_PAGES cfg)).
Local Abbreviation page_filename := (Fetch.page_filename (OUTPUT_DIR cfg)).

(** The pages whose task returns a file path. *)
Local Abbreviation fetched pattern :=
  (fun p : Z =>
     match snd (fst (telecharger_page (p, Url.generer_url pattern p, OUTPUT_DIR cfg))) with
     | Some _ => true
     | None => false
     end).

Lemma telecharger_page_cases (page : Z) (url output_dir : string) :
  telecharger_page (page, url, output_dir) =
    (page, Some (Fetch.page_filename output_dir page), None) \/
  exists reason, telecharger_page (page, url, output_dir) = (page, None, Some reason).
Proof.
  unfold Fetch.telecharger_page.
  destruct (requests_get url) as [e|status content]; [right; now exists e|].
  destruct ((status =? 200)%Z && (Z.of_nat (List.length content) >? 10000)%Z);
    [|right; eexists; reflexivity].
  destruct (write_file _ content) as [e|]; [right; now exists e|now left].
Qed.

(** What the aggregation loop collects from the results of a list of
    pages, in the order of the list. *)
Lemma results_by_page (pattern : Url.pattern) (ps : list Z) :
  let results :=
    map telecharger_page
      (map (fun page => (page, Url.generer_url pattern page, OUTPUT_DIR cfg)) ps) in
  flat_map success_of results = map page_filename (filter (fetched pattern) ps) /\
  map fst (flat_map failure_of results) =
    filter (fun p => negb (fetched pattern p)) ps.
Proof.
  induction ps as [|p ps [IH1 IH2]]; [now split|].
  cbn [map flat_map filter].
  destruct (telecharger_page_cases p (Url.generer_url pattern p) (OUTPUT_DIR cfg))
    as [E|(reason & E)]; rewrite E; cbn [fst snd negb].
  - destruct (OrderFacts.page_filename_nonempty (OUTPUT_DIR cfg) p) as (c & f & Hf).
    rewrite Hf. cbn [success_of failure_of app map]. rewrite <- Hf.
    split; [exact (f_equal (cons _) IH1)|exact IH2].
  - cbn [success_of failure_of app map fst].
    split; [exact IH1|exact (f_equal (cons _) IH2)].
Qed.

Lemma download_by_page (pattern : Url.pattern) :
  (forall l, Permutation (as_completed l) l) ->
  Permutation (fst (download pattern))
              (map page_filename (filter (fetched pattern) pages)) /\
  Permutation (map fst (snd (download pattern)))
              (filter (fun p => negb (fetched pattern p)) pages).
Proof.
  intros Hperm.
  destruct (results_by_page pattern pages) as [R1 R2].
  pose proof (Permutation_map telecharger_page (Hperm (taches pattern))) as P.
  unfold Main.download. rewrite MainFacts.aggregate_flat_map. cbn [fst snd].
  split.
  - rewrite <- R1. apply Permutation_flat_map. exact P.
  - rewrite <- R2. apply Permutation_map, Permutation_flat_map. exact P.
Qed.

(** X7. Whatever the answers of the server and the order in which the
    workers finish, every page of the range ends in exactly one of the
    two lists of [main]: its file in [fichiers] or its number in
    [erreurs], once; the two lists hold nothing else, and together
    they have [NB_PAGES] entries. *)
Theorem download_every_page_once (pattern : Url.pattern) :
  (forall l, Permutation (as_completed l) l) ->
  let fichiers := fst (download pattern) in
  let erreurs := snd (download pattern) in
  (List.length fichiers + List.length erreurs)%nat = Z.to_nat (NB_PAGES cfg) /\
  NoDup fichiers /\ NoDup (map fst erreurs) /\
  (forall p, In p pages ->
     (In (page_filename p) fichiers <-> ~ In p (map fst erreurs))) /\
  (forall f, In f fichiers -> exists p, In p pages /\ f = page_filename p) /\
  (forall p, In p (map fst erreurs) -> In p pages).
Proof.
  intros Hperm fichiers erreurs.
  destruct (download_by_page pattern Hperm) as [F E].
  fold fichiers in F. fold erreurs in E.
  pose proof (MainFacts.NoDup_range (PAGE_DEBUT cfg) (PAGE_DEBUT cfg + NB_PAGES cfg))
    as Hnd.
  assert (Hin : forall p, In (page_filename p) fichiers <->
                          In p pages /\ fetched pattern p = true).
  { intros p. split.
    - intros H. apply (Permutation_in _ F) in H.
      apply in_map_iff in H as (q & Hq & H).
      apply ResultFacts.page_filename_inj in Hq. subst q.
      apply filter_In in H. exact H.
    - intros H. apply (Permutation_in _ (Permutation_sym F)).
      apply in_map. apply filter_In. exact H. }
  assert (Hout : forall p, In p (map fst erreurs) <->
                           In p pages /\ fetched pattern p = false).
  { intros p. split.
    - intros H. apply (Permutation_in _ E) in H.
      apply filter_In in H as [H1 H2]. apply negb_true_iff in H2. now split.
    - intros [H1 H2]. apply (Permutation_in _ (Permutation_sym E)).
      apply filter_In. split; [exact H1|]. apply negb_true_iff. exact H2. }
  split; [|split; [|split; [|split; [|split]]]].
  - rewrite <- (length_map fst erreurs).
    rewrite (Permutation_length F), (Permutation_length E), length_map.
    rewrite filter_length, MainFacts.length_range. f_equal. lia.
  - apply (Permutation_NoDup (Permutation_sym F)).
    apply NoDup_map_inj; [apply ResultFacts.page_filename_inj|now apply NoDup_filter].
  - apply (Permutation_NoDup (Permutation_sym E)). now apply NoDup_filter.
  - intros p Hp. split.
    + intros H C. apply Hin in H. apply Hout in C.
      destruct H as [_ H], C as [_ C]. congruence.
    + intros H. apply Hin. split; [assumption|].
      destruct (fetched pattern p) eqn:Ef; [reflexivity|].
      exfalso. apply H. apply Hout. now split.
  - intros f H. apply (Permutation_in _ F) in H.
    apply in_map_iff in H as (q & Hq & H). apply filter_In in H as [H _].
    now exists q.
  - intros p H. now apply Hout in H.
Qed.

(** X8. When the pages of the range lie within 0..9999, the list
    that [main] hands to the packer after [fichiers.sort()] holds the
    files of the pages fetched in increasing page order, whatever the
    answers of the server and the order in which the workers
    finish. *)
Theorem fetch_all_page_order (pattern : Url.pattern) :
  (forall l, Permutation (as_completed l) l) ->
  0 <= PAGE_DEBUT cfg -> PAGE_DEBUT cfg + NB_PAGES cfg <= 10000 ->
  fst (fetch_all pattern) = map page_filename (filter (fetched pattern) pages).
Proof.
  intros Hperm Hd Hn.
  destruct (download_by_page pattern Hperm) as [F _].
  unfold Main.fetch_all. cbn [fst].
  apply OrderFacts.sort_permutation; [exact F|].
  unfold range.
  destruct (Z.le_gt_cases 0 (NB_PAGES cfg)) as [Hpos|Hneg].
  - apply MainFacts.filenames_sorted; lia.
  - replace (Z.to_nat (PAGE_DEBUT cfg + NB_PAGES cfg - PAGE_DEBUT cfg)) with 0%nat by lia.
    constructor.
Qed.

(** X9. When a pattern is found and [main] returns, the URLs given to
    [requests.get] are the URLs generated for the pages [PAGE_DEBUT] to
    [PAGE_DEBUT + NB_PAGES - 1], each one once, and no other. *)
Theorem main_requests_each_page_once (pattern : Url.pattern) (fuel : nat)
    (r : report) :
  (forall l, Permutation (as_completed l) l) ->
  Url.analyser_url unquote (EXEMPLE_URL cfg) = Some pattern ->
  main fuel = Returns r ->
  Permutation (requested r) (map (Url.generer_url pattern) pages) /\
  NoDup (requested r).
Proof.
  intros Hperm Hpat. unfold Main.main. rewrite Hpat.
  set (urls := map (fun t : Z * string * string => snd (fst t))
                   (as_completed (taches pattern))).
  assert (P : Permutation urls (map (Url.generer_url pattern) pages)).
  { unfold urls.
    eapply Permutation_trans; [apply Permutation_map, Hperm|].
    unfold Main.taches. rewrite map_map. apply Permutation_refl. }
  assert (N : NoDup urls).
  { apply (Permutation_NoDup (Permutation_sym P)).
    apply NoDup_map_inj; [apply UrlFacts.generer_url_inj|apply MainFacts.NoDup_range]. }
  destruct (fst (download pattern)) as [|f fs].
  - intros [= <-]. now split.
  - destruct (fetch_all pattern) as [sorted errs].
    destruct (Packer.creer_pdf_split _ _ _ _ _ _ _ _) as [res| |];
      simpl; try discriminate.
    intros [= <-]. now split.
Qed.

(** X10. When no request of the range is answered with status 200 and
    more than 10000 bytes, [main] returns for any amount of fuel
    without running the packer: no file, no document, and every page
    of the range recorded once in [erreurs]. *)
Theorem main_nothing_fetched (pattern : Url.pattern) (fuel : nat) :
  (forall l, Permutation (as_completed l) l) ->
  Url.analyser_url unquote (EXEMPLE_URL cfg) = Some pattern ->
  (forall p content,
     In p pages ->
     requests_get (Url.generer_url pattern p) = Fetch.GetReturns 200 content ->
     Z.of_nat (List.length content) <= 10000) ->
  exists r,
    main fuel = Returns r /\
    fichiers r = [] /\ pdfs r = [] /\
    Permutation (map fst (erreurs r)) pages.
Proof.
  intros Hperm Hpat Hfail.
  destruct (download_by_page pattern Hperm) as [F E].
  assert (Hnone : forall p, In p pages -> fetched pattern p = false).
  { intros p Hp. unfold Fetch.telecharger_page.
    destruct (requests_get (Url.generer_url pattern p)) as [e|status content] eqn:G;
      [reflexivity|].
    destruct (Z.eqb_spec status 200) as [->|_]; [|reflexivity].
    specialize (Hfail p content Hp G).
    destruct (Z.gtb_spec (Z.of_nat (List.length content)) 10000); [lia|reflexivity]. }
  assert (F0 : filter (fetched pattern) pages = []).
  { apply filter_none. exact Hnone. }
  assert (E0 : filter (fun p => negb (fetched pattern p)) pages = pages).
  { apply filter_every. intros p Hp. now rewrite (Hnone p Hp). }
  rewrite F0 in F. rewrite E0 in E. simpl in F.
  apply Permutation_sym, Permutation_nil in F.
  unfold Main.main. rewrite Hpat, F.
  eexists. split; [reflexivity|]. simpl. repeat split. exact E.
Qed.

(** The page counts of the documents that the packer returns add up
    to the number of files minus the number of files that fail to
    decode. *)
Lemma page_counts (fichiers : list string) (output_base : string)
    (max_size_mb : Py.number) (max_width : Z) (fuel : nat)
    (res : list Packer.pdf_info * list (string * list image)) :
  Py.negative max_size_mb = false ->
  Packer.creer_pdf_split image charger taille_pdf fichiers output_base
    max_size_mb max_width fuel = Returns res ->
  list_sum (map snd (fst res)) =
  (List.length fichiers -
   Packer.decode_failures image charger max_width fichiers)%nat.
Proof.
  intros Hm. unfold Packer.creer_pdf_split.
  destruct (Packer.initial_pages_par_pdf fichiers max_size_mb) as [k| |] eqn:Hp;
    simpl; try discriminate.
  destruct (Packer.boucle _ _ _ _ _ _ _ fuel _) as [st| |] eqn:Hb;
    simpl; try discriminate.
  intros [= <-]. simpl.
  apply PackerFacts.initial_pages_nonneg in Hp; [|assumption].
  destruct (PackerFacts.invariant_boucle _ _ _ _ _ _ _ _ _ _ _ Hm
              (PackerFacts.invariant_initial _ charger fichiers max_width k Hp) Hb)
    as (batches & (Hi & Hq & Hc & Hs & Hn) & Hge).
  rewrite firstn_all2 in Hc by lia.
  rewrite Hn, <- (map_map snd (@List.length image)), Hs.
  rewrite PackerFacts.list_sum_nonempty, <- PackerFacts.load_concat, Hc.
  apply PackerFacts.length_load.
Qed.

(** X11. Whenever [main] returns (with a ceiling that is not
    negative), the total number of pages of the documents, which the
    summary prints, is the number of page files downloaded minus the
    number of those that fail to decode. *)
Theorem main_total_pages (fuel : nat) (r : report) :
  Py.negative (MAX_PDF_SIZE_MB cfg) = false ->
  main fuel = Returns r ->
  list_sum (map snd (pdfs r)) =
  (List.length (fichiers r) -
   Packer.decode_failures image charger (MAX_WIDTH cfg) (fichiers r))%nat.
Proof.
  intros Hm. unfold Main.main.
  destruct (Url.analyser_url unquote (EXEMPLE_URL cfg)) as [pattern|];
    [|now intros [= <-]].
  destruct (fst (download pattern)) as [|f fs]; [now intros [= <-]|].
  destruct (fetch_all pattern) as [sorted errs].
  destruct (Packer.creer_pdf_split _ _ _ _ _ _ _ _) as [res| |] eqn:Hres;
    simpl; try discriminate.
  intros [= <-]. simpl.
  exact (page_counts _ _ _ _ _ _ Hm Hres).
Qed.

End ScriptFacts.

Lemma rev_completed (l : list (Z * string * string)) :
  Permutation (Example.last_first l) l.
Proof. apply Permutation_sym, Permutation_rev. Qed.

(** Pages 1 to 10 of the sample backend, workers that finish last
    first: 8 files and 2 errors. *)
Lemma download_every_page_once_witness :
  (List.length (fst (Main.download (Example.backend 10001) Example.write_ok
                       Example.last_first (Example.config "http://h/p0001.jpg" 10)
                       Example.pattern)) +
   List.length (snd (Main.download (Example.backend 10001) Example.write_ok
                       Example.last_first (Example.config "http://h/p0001.jpg" 10)
                       Example.pattern)))%nat = 10%nat.
Proof.
  exact (proj1 (download_every_page_once (Example.backend 10001) Example.write_ok
                  Example.last_first (Example.config "http://h/p0001.jpg" 10)
                  Example.pattern rev_completed)).
Defined.

Lemma fetch_all_page_order_witness :
  fst (Main.fetch_all (Example.backend 10001) Example.write_ok
         Example.last_first (Example.config "http://h/p0001.jpg" 10)
         Example.pattern) =
  ["temp/page_0001.jpg"; "temp/page_0002.jpg"; "temp/page_0004.jpg";
   "temp/page_0005.jpg"; "temp/page_0006.jpg"; "temp/page_0008.jpg";
   "temp/page_0009.jpg"; "temp/page_0010.jpg"].
Proof.
  rewrite (fetch_all_page_order (Example.backend 10001) Example.write_ok
             Example.last_first (Example.config "http://h/p0001.jpg" 10)
             Example.pattern rev_completed); [|simpl; lia|simpl; lia].
  vm_compute. reflexivity.
Defined.

(** A run of the script on pages 1 to 10 of the sample backend: 8
    files, one document of 8 pages. *)
Lemma main_sample_run :
  exists r,
    Main.main Example.unquote (Example.backend 10001) Example.write_ok
      Example.last_first unit Example.charger_ok Example.taille_3_mo
      (Example.config "http://h/p0001.jpg" 10) 1 = Returns r /\
    List.length (requested r) = 10%nat /\
    List.length (fichiers r) = 8%nat /\
    map snd (pdfs r) = [8%nat].
Proof. eexists. split; [vm_compute; reflexivity|]. repeat split. Qed.

Lemma main_requests_each_page_once_witness :
  exists r,
    Main.main Example.unquote (Example.backend 10001) Example.write_ok
      Example.last_first unit Example.charger_ok Example.taille_3_mo
      (Example.config "http://h/p0001.jpg" 10) 1 = Returns r /\
    NoDup (requested r).
Proof.
  destruct main_sample_run as (r & Hr & _).
  exists r. split; [exact Hr|].
  refine (proj2 (main_requests_each_page_once Example.unquote (Example.backend 10001)
                   Example.write_ok Example.last_first unit Example.charger_ok
                   Example.taille_3_mo (Example.config "http://h/p0001.jpg" 10)
                   Example.pattern 1 r rev_completed _ Hr)).
  reflexivity.
Defined.

(** Payloads of exactly 10000 bytes: nothing is fetched. *)
Lemma main_nothing_fetched_witness :
  exists r,
    Main.main Example.unquote (Example.backend 10000) Example.write_ok
      Example.last_first unit Example.charger_ok Example.taille_3_mo
      (Example.config "http://h/p0001.jpg" 10) 0 = Returns r /\
    fichiers r = [] /\ pdfs r = [].
Proof.
  destruct (main_nothing_fetched Example.unquote (Example.backend 10000)
              Example.write_ok Example.last_first unit Example.charger_ok
              Example.taille_3_mo (Example.config "http://h/p0001.jpg" 10)
              Example.pattern 0 rev_completed)
    as (r & Hr & Hf & Hp & _).
  - reflexivity.
  - intros p content _ H. unfold Example.backend in H.
    destruct (_ || _) in H; inversion H; subst content.
    vm_compute. discriminate.
  - exists r. repeat split; assumption.
Defined.

Lemma main_total_pages_witness :
  exists r,
    Main.main Example.unquote (Example.backend 10001) Example.write_ok
      Example.last_first unit Example.charger_ok Example.taille_3_mo
      (Example.config "http://h/p0001.jpg" 10) 1 = Returns r /\
    list_sum (map snd (pdfs r)) = 8%nat.
Proof.
  destruct main_sample_run as (r & Hr & _ & Hf & _).
  exists r. split; [exact Hr|].
  rewrite (main_total_pages Example.unquote (Example.backend 10001)
             Example.write_ok Example.last_first unit Example.charger_ok
             Example.taille_3_mo (Example.config "http://h/p0001.jpg" 10)
             1 r eq_refl Hr).
  rewrite Hf. unfold Packer.decode_failures.
  rewrite filter_none; [reflexivity|]. intros f _. reflexivity.
Defined.

End ScriptFacts.

(** ** The adaptive packer: when the loop ends, and what it returns *)

Module LoopFacts.

Import Packer.

Section LoopFacts.

Context (image : Type).
Context (charger : Z -> string -> option image).
Context (taille_pdf : string -> list image -> N).
Context (fichiers : list string) (output_base : string).
Context (max_size_mb : Py.number) (max_width : Z).

Local Abbreviation load := (load image charger max_width).
Local Abbreviation iteration :=
  (iteration image charger taille_pdf fichiers output_base max_size_mb max_width).
Local Abbreviation boucle :=
  (boucle image charger taille_pdf fichiers output_base max_size_mb max_width).
Local Abbreviation creer_pdf_split :=
  (creer_pdf_split image charger taille_pdf fichiers output_base max_size_mb max_width).
Local Abbreviation ajuster := (ajuster max_size_mb).
Local Abbreviation taille_mo_of := (taille_mo_of image taille_pdf).
Local Abbreviation state := (state image).
Local Abbreviation n := (Z.of_nat (List.length fichiers)).
Local Abbreviation numbered := (Numbering.numbered image output_base).

(** A property that every pass keeps holds when the loop returns. *)
Lemma boucle_keeps (P : state -> Prop) :
  (forall st st', P st -> idx _ st < n -> iteration st = Returns st' -> P st') ->
  forall (fuel : nat) (st st' : state),
    P st -> boucle fuel st = Returns st' -> P st' /\ n <= idx _ st'.
Proof.
  intros Hstep. induction fuel as [|fuel IH]; intros st st' HP; simpl;
    destruct (Z.ltb_spec (idx _ st) n) as [Hlt|Hge];
    try discriminate;
    try (intros [= <-]; split; [assumption|lia]).
  destruct (iteration st) as [st1| |] eqn:Hit; simpl; try discriminate.
  apply IH. now apply (Hstep st).
Qed.

(** Passes that all return and move [idx] forward: the loop returns
    within as many passes as there are files left. *)
Lemma boucle_advances (P : state -> Prop) :
  (forall st, P st -> idx _ st < n ->
     exists st', iteration st = Returns st' /\ P st' /\ idx _ st < idx _ st') ->
  forall (fuel : nat) (st : state),
    P st -> n - idx _ st <= Z.of_nat fuel ->
    exists st', boucle fuel st = Returns st' /\ P st'.
Proof.
  intros Hstep. induction fuel as [|fuel IH]; intros st HP Hfuel; simpl;
    destruct (Z.ltb_spec (idx _ st) n) as [Hlt|Hge];
    try lia; try (exists st; split; [reflexivity|assumption]).
  destruct (Hstep st HP Hlt) as (st1 & Hit & HP1 & Hadv).
  rewrite Hit. simpl. apply IH; [assumption|lia].
Qed.


Lemma slice_incl (i k : Z) (f : string) :
  In f (Py.slice fichiers i (i + k)) -> In f fichiers.
Proof.
  unfold Py.slice. intros H.
  set (a := Z.to_nat (Py.clamp n i)) in *.
  rewrite <- (firstn_skipn a fichiers). apply in_or_app. right.
  rewrite <- (firstn_skipn (Z.to_nat (Py.clamp n (i + k) - Py.clamp n i))
                (skipn a fichiers)).
  apply in_or_app. now left.
Qed.

Lemma load_none (l : list string) :
  (forall f, In f l -> charger max_width f = None) -> load l = [].
Proof.
  induction l as [|f l IH]; intros H; simpl; [reflexivity|].
  rewrite (H f (or_introl eq_refl)). apply IH.
  intros g Hg. apply H. now right.
Qed.

Lemma initial_pages (seed : Z) :
  seed_pages_par_pdf max_size_mb = Returns seed ->
  initial_pages_par_pdf fichiers max_size_mb =
  Returns (if seed >=? n then n else seed).
Proof. intros H. unfold initial_pages_par_pdf. now rewrite H. Qed.


(** X13. When no file decodes and the seed estimate is at least 1,
    [creer_pdf_split] returns the empty list and writes no
    document. *)
Theorem creer_pdf_split_all_corrupt (seed : Z) (fuel : nat) :
  seed_pages_par_pdf max_size_mb = Returns seed -> 1 <= seed ->
  (forall f, In f fichiers -> charger max_width f = None) ->
  (List.length fichiers <= fuel)%nat ->
  creer_pdf_split fuel = Returns ([], []).
Proof.
  intros Hseed H1 Hnone Hfuel.
  unfold Packer.creer_pdf_split. rewrite (initial_pages seed Hseed). cbn [bind].
  set (p := if seed >=? n then n else seed).
  destruct (Z.eq_dec n 0) as [Hn|Hn].
  { rewrite PackerFacts.boucle_done by (simpl; lia). reflexivity. }
  assert (Hp : 1 <= p) by (unfold p; destruct (Z.geb_spec seed n); lia).
  destruct (boucle_advances
              (fun st => 0 <= idx _ st /\ 1 <= pages_par_pdf _ st /\
                         pdfs_crees _ st = [] /\ saved _ st = []))
    with (fuel := fuel) (st := initial_state image p)
    as (st' & Hb & _ & _ & Hpdfs & Hsaved).
  - intros st (Hi & Hk & Hpd & Hsv) Hlt.
    unfold Packer.iteration.
    rewrite load_none by (intros f Hf; apply Hnone; eapply slice_incl; eassumption).
    eexists. split; [reflexivity|]. simpl. repeat split; try assumption; lia.
  - simpl. repeat split; try reflexivity; lia.
  - simpl. lia.
  - rewrite Hb. simpl. now rewrite Hpdfs, Hsaved.
Qed.

(** X14. A seed estimate of zero on a list that is not empty: the
    estimate is not raised, [idx] never moves, and [creer_pdf_split]
    does not return, whatever the number of passes allowed. *)
Theorem creer_pdf_split_seed_zero (fuel : nat) :
  seed_pages_par_pdf max_size_mb = Returns 0 -> fichiers <> [] ->
  creer_pdf_split fuel = OutOfFuel.
Proof.
  intros Hseed Hne.
  assert (Hn : 0 < n) by (destruct fichiers; [congruence|simpl; lia]).
  unfold Packer.creer_pdf_split. rewrite (initial_pages 0 Hseed). cbn [bind].
  destruct (Z.geb_spec 0 n); [lia|].
  rewrite PackerFacts.boucle_stuck; [reflexivity|reflexivity|exact Hn].
Qed.

Lemma range_snoc (a : Z) (k : nat) :
  Main.range a (a + Z.of_nat (S k)) = Main.range a (a + Z.of_nat k) ++ [a + Z.of_nat k].
Proof.
  unfold Main.range.
  replace (Z.to_nat (a + Z.of_nat (S k) - a)) with (S k) by lia.
  replace (Z.to_nat (a + Z.of_nat k - a)) with k by lia.
  rewrite seq_S, map_app. reflexivity.
Qed.

Lemma numbered_iteration (st st' : state) :
  numbered 1 st -> iteration st = Returns st' -> numbered 1 st'.
Proof.
  intros (Hnum & Hnames & Hsaved). unfold Packer.iteration.
  destruct (load _) as [|img images].
  - intros [= <-]. unfold Numbering.numbered. simpl. auto.
  - destruct (taille_mo_of _ _) as [t| |]; cbn [bind]; try discriminate.
    destruct (ajuster _ _) as [k| |]; cbn [bind]; try discriminate.
    intros [= <-]. unfold Numbering.numbered.
    cbn [pdf_num pdfs_crees saved].
    rewrite !length_app, !map_app. cbn [List.length map fst snd].
    rewrite Nat.add_1_r, range_snoc, map_app. cbn [map].
    split; [lia|]. split.
    + apply f_equal2; [exact Hnames|now rewrite Hnum].
    + apply f_equal2; [exact Hsaved|reflexivity].
Qed.

Lemma pdf_name_of_inj (a b : Z) :
  0 <= a -> 0 <= b ->
  pdf_name_of output_base a = pdf_name_of output_base b -> a = b.
Proof.
  intros Ha Hb. unfold pdf_name_of. intros E.
  do 2 apply StrFacts.append_inv_head in E.
  assert (La : Py.fmt_0d 0 a = Py.str a).
  { unfold Py.fmt_0d. destruct (Z.ltb_spec a 0); [lia|reflexivity]. }
  assert (Lb : Py.fmt_0d 0 b = Py.str b).
  { unfold Py.fmt_0d. destruct (Z.ltb_spec b 0); [lia|reflexivity]. }
  assert (L : String.length (Py.str a) = String.length (Py.str b)).
  { apply (f_equal String.length) in E.
    rewrite !StrFacts.length_append in E. lia. }
  apply (StrFacts.append_inv_length _ _ _ _ E) in L as [L _].
  apply (FmtFacts.fmt_0d_inj 0). congruence.
Qed.

(** X15. The documents returned are named [output_base_1.pdf],
    [output_base_2.pdf], ... in the order of the list, without a gap
    (a batch without a decoded page takes no number); the names are
    pairwise distinct, so that no document is written over another. *)
Theorem creer_pdf_split_names (fuel : nat) (pdfs : list pdf_info)
    (docs : list (string * list image)) :
  creer_pdf_split fuel = Returns (pdfs, docs) ->
  map (fun d => fst (fst d)) pdfs =
    map (pdf_name_of output_base)
        (Main.range 1 (1 + Z.of_nat (List.length pdfs))) /\
  map fst docs = map (fun d => fst (fst d)) pdfs /\
  NoDup (map fst docs).
Proof.
  unfold Packer.creer_pdf_split.
  destruct (initial_pages_par_pdf fichiers max_size_mb) as [pages| |];
    simpl; try discriminate.
  destruct (boucle fuel _) as [st| |] eqn:Hb; simpl; try discriminate.
  intros [= <- <-].
  destruct (boucle_keeps (numbered 1)) with (fuel := fuel)
    (st := initial_state image pages) (st' := st) as [(Hnum & Hnames & Hsaved) _].
  - intros s s' Hs _. now apply numbered_iteration.
  - unfold Numbering.numbered. simpl. auto.
  - exact Hb.
  - split; [exact Hnames|]. split; [exact Hsaved|].
    rewrite Hsaved, Hnames.
    set (r := Main.range 1 _).
    assert (Hr : forall a, In a r -> 0 <= a).
    { intros a Ha. apply OrderFacts.in_range in Ha. lia. }
    assert (Hd : NoDup r) by apply MainFacts.NoDup_range.
    clearbody r. induction Hd as [|a r Ha Hd IH]; simpl; constructor.
    + intros Hin. apply in_map_iff in Hin as (b & Hb' & Hin).
      apply pdf_name_of_inj in Hb'.
      * subst b. contradiction.
      * apply Hr. now right.
      * apply Hr. now left.
    + apply IH. intros b Hb'. apply Hr. now right.
Qed.

Lemma concat_nonempty {A} (ls : list (list A)) :
  List.concat (filter nonempty ls) = List.concat ls.
Proof.
  induction ls as [|l ls IH]; simpl; [reflexivity|].
  destruct l; simpl; now rewrite IH.
Qed.

Lemma Forall_nonempty {A} (ls : list (list A)) :
  Forall (fun l => l <> []) (filter nonempty ls).
Proof.
  induction ls as [|l ls IH]; simpl; [constructor|].
  destruct l; simpl; [assumption|]. constructor; [discriminate|assumption].
Qed.

(** X16. Whenever [creer_pdf_split] returns (for a ceiling that is not
    negative), the pages of the documents, read document after
    document, are the decoded pages of the whole file list in the
    order of the list: none is lost, repeated or moved; and every
    document holds at least one page. *)
Theorem creer_pdf_split_pages_in_order (fuel : nat) (pdfs : list pdf_info)
    (docs : list (string * list image)) :
  Py.negative max_size_mb = false ->
  creer_pdf_split fuel = Returns (pdfs, docs) ->
  List.concat (map snd docs) = load fichiers /\
  Forall (fun d => snd d <> []) docs /\
  Forall (fun d => (1 <= snd d)%nat) pdfs.
Proof.
  intros Hm. unfold Packer.creer_pdf_split.
  destruct (initial_pages_par_pdf fichiers max_size_mb) as [pages| |] eqn:Hp;
    simpl; try discriminate.
  destruct (boucle fuel _) as [st| |] eqn:Hb; simpl; try discriminate.
  intros [= <- <-].
  apply PackerFacts.initial_pages_nonneg in Hp; [|assumption].
  destruct (PackerFacts.invariant_boucle _ _ _ _ _ _ _ _ _ _ _ Hm
              (PackerFacts.invariant_initial _ charger fichiers max_width pages Hp) Hb)
    as (batches & (Hi & Hq & Hc & Hs & Hn) & Hge).
  rewrite firstn_all2 in Hc by lia.
  assert (Hdocs : Forall (fun d : string * list image => snd d <> []) (saved _ st)).
  { apply Forall_map with (f := snd) (P := fun l : list image => l <> []).
    rewrite Hs. apply Forall_nonempty. }
  split; [|split].
  - rewrite Hs, concat_nonempty, <- PackerFacts.load_concat, Hc. reflexivity.
  - exact Hdocs.
  - apply Forall_map with (f := snd) (P := fun k : nat => (1 <= k)%nat).
    rewrite Hn. apply Forall_map. revert Hdocs. apply Forall_impl.
    intros [name images] H. simpl in *. destruct images; [congruence|simpl; lia].
Qed.

(** X17. A list that the seed estimate covers goes into one document,
    whatever the size of that document: when the seed is at least the
    number of files and some file decodes, [creer_pdf_split] writes
    all the decoded pages into [output_base_1.pdf] and returns this
    one document, even when it measures more than the ceiling. *)
Theorem creer_pdf_split_one_document (seed pages' : Z) (taille_mo : Py.float)
    (fuel : nat) :
  seed_pages_par_pdf max_size_mb = Returns seed -> n <= seed ->
  load fichiers <> [] ->
  let pdf_name := pdf_name_of output_base 1 in
  taille_mo_of pdf_name (load fichiers) = Returns taille_mo ->
  ajuster n taille_mo = Returns pages' ->
  creer_pdf_split (S fuel) =
  Returns ([(pdf_name, taille_mo, List.length (load fichiers))],
           [(pdf_name, load fichiers)]).
Proof.
  intros Hseed Hle Hload pdf_name Ht Haj.
  unfold Packer.creer_pdf_split. rewrite (initial_pages seed Hseed). cbn [bind].
  destruct (Z.geb_spec seed n) as [_|Hlt]; [|lia].
  assert (Hn : 0 < n) by (destruct fichiers; [simpl in Hload; congruence|simpl; lia]).
  pose (st0 := initial_state image n). fold st0.
  assert (Hslice : Py.slice fichiers (idx _ st0) (idx _ st0 + pages_par_pdf _ st0)
                   = fichiers).
  { change (Py.slice fichiers 0 (0 + n) = fichiers).
    rewrite PyFacts.slice_firstn_skipn by lia.
    change (Z.to_nat 0) with 0%nat. rewrite skipn_0.
    apply firstn_all2. lia. }
  assert (Hit : iteration st0 =
                Returns (mkState image n pages' 2
                           [(pdf_name, taille_mo, List.length (load fichiers))]
                           [(pdf_name, load fichiers)])).
  { rewrite PackerFacts.iteration_nonempty; rewrite Hslice; [|assumption].
    change (pdf_name_of output_base (pdf_num _ st0)) with pdf_name.
    rewrite Ht. cbn [bind].
    change (pages_par_pdf _ st0) with n. rewrite Haj. reflexivity. }
  rewrite (PackerFacts.boucle_step _ _ _ _ _ _ _ fuel st0 _ _ Hn Hit eq_refl).
  rewrite PackerFacts.boucle_done; [reflexivity|]. simpl. lia.
Qed.

End LoopFacts.


(** Three files that do not decode, the ceiling of the script. *)
Lemma creer_pdf_split_all_corrupt_witness :
  creer_pdf_split unit Example.charger_corrupt Example.taille_3_mo
    Example.three_files "Cadastre" (Py.Int 25) 2000 3 = Returns ([], []).
Proof.
  apply (creer_pdf_split_all_corrupt unit Example.charger_corrupt Example.taille_3_mo
           Example.three_files "Cadastre" (Py.Int 25) 2000 73 3).
  - vm_compute. reflexivity.
  - lia.
  - reflexivity.
  - simpl. lia.
Defined.

(** Three files and a ceiling of 0.3 MB. *)
Lemma creer_pdf_split_seed_zero_witness :
  creer_pdf_split unit Example.charger_ok Example.taille_400_ko
    Example.three_files "Cadastre" (Py.Float Example.float_0_3) 2000 1000
  = OutOfFuel.
Proof.
  apply (creer_pdf_split_seed_zero unit Example.charger_ok Example.taille_400_ko
           Example.three_files "Cadastre" (Py.Float Example.float_0_3) 2000 1000).
  - vm_compute. reflexivity.
  - discriminate.
Defined.

(** The run of four files with 500000 bytes per page: two documents. *)
Lemma creer_pdf_split_sample_run :
  exists pdfs docs,
    creer_pdf_split string Example.charger_named Example.taille_par_page
      Example.four_files "Cadastre" (Py.Int 1) 2000 5 = Returns (pdfs, docs) /\
    List.length pdfs = 2%nat.
Proof. eexists. eexists. split; [vm_compute; reflexivity|reflexivity]. Qed.

Lemma creer_pdf_split_names_witness :
  exists pdfs docs,
    creer_pdf_split string Example.charger_named Example.taille_par_page
      Example.four_files "Cadastre" (Py.Int 1) 2000 5 = Returns (pdfs, docs) /\
    map fst docs = ["Cadastre_1.pdf"; "Cadastre_2.pdf"]%string.
Proof.
  destruct creer_pdf_split_sample_run as (pdfs & docs & Hr & Hl).
  exists pdfs, docs. split; [exact Hr|].
  destruct (creer_pdf_split_names string Example.charger_named Example.taille_par_page
              Example.four_files "Cadastre" (Py.Int 1) 2000 5 pdfs docs Hr)
    as (Hn & Hd & _).
  rewrite Hd, Hn, Hl. reflexivity.
Defined.

Lemma creer_pdf_split_pages_in_order_witness :
  exists pdfs docs,
    creer_pdf_split string Example.charger_named Example.taille_par_page
      Example.four_files "Cadastre" (Py.Int 1) 2000 5 = Returns (pdfs, docs) /\
    List.concat (map snd docs) =
      ["temp/page_0001.jpg"; "temp/page_0003.jpg"; "temp/page_0004.jpg"]%string.
Proof.
  destruct creer_pdf_split_sample_run as (pdfs & docs & Hr & _).
  exists pdfs, docs. split; [exact Hr|].
  exact (proj1 (creer_pdf_split_pages_in_order string Example.charger_named
                  Example.taille_par_page Example.four_files "Cadastre" (Py.Int 1)
                  2000 5 pdfs docs eq_refl Hr)).
Defined.

(** Three files whose document measures 30 MiB, above the ceiling of
    25 MB: one document of three pages. *)
Lemma creer_pdf_split_one_document_witness :
  exists taille_mo,
    Py.lt (S754_finite false 7036874417766400 (-48)) taille_mo = true /\
    creer_pdf_split unit Example.charger_ok Example.taille_30_mo
      Example.three_files "Cadastre" (Py.Int 25) 2000 1
    = Returns ([("Cadastre_1.pdf"%string, taille_mo, 3%nat)],
               [("Cadastre_1.pdf"%string, [tt; tt; tt])]).
Proof.
  exists (S754_finite false 8444249301319680 (-48)).
  split; [vm_compute; reflexivity|].
  apply (creer_pdf_split_one_document unit Example.charger_ok Example.taille_30_mo
           Example.three_files "Cadastre" (Py.Int 25) 2000 73 2 _ 0).
  - vm_compute. reflexivity.
  - simpl. lia.
  - discriminate.
  - vm_compute. reflexivity.
  - vm_compute. reflexivity.
Defined.

End LoopFacts.
